(** * Tatsu: the HTTP request pipeline of [tatsu/http.py]

    A shallow embedding of [Route] (URL templating) and of
    [HTTPClient.request] (header injection, the 5-attempt loop, the locally
    tracked rate-limit reset time and the unlock event), together with the
    endpoint wrappers, followed by the properties of the specification.

    Python values are modelled as follows: [str] as [string] (the UTF-8
    bytes of the text), [int] as [Z], [dict] as [gmap], [datetime] and
    [timedelta] as [Z] microseconds.  A call either returns, raises, or
    leaves the part of the standard library that is modelled here
    ([outcome]). *)

From Stdlib Require Import ZArith String Ascii List Bool Lia DecimalString Sorted.
From stdpp Require Import base option strings gmap.

Local Open Scope string_scope.
Local Open Scope Z_scope.
Local Open Scope list_scope.

(** ** Python runtime: outcomes and exceptions *)

Module Py.

(** The exceptions that the modelled code can raise.  [ClientResponseError]
    is aiohttp's, with the fields [raise_for_status] fills in;
    [ClientConnectionError] stands for a transport that gives no response. *)
Inductive exn : Type :=
  | KeyError (key : string)
  | ValueError (msg : string)
  | RuntimeError (msg : string)
  | TypeError (msg : string)
  | ClientResponseError (status : Z) (message : string)
      (headers : list (string * string))
  | ClientConnectionError.

(** What a call does: it returns a value, raises, or its behaviour is not
    modelled ([Beyond]: bracketed or non-ASCII hosts in [urlsplit],
    replacement fields with a conversion, a format spec, an attribute or an
    index in [str.format_map]). *)
Inductive outcome (A : Type) : Type :=
  | Returns (a : A)
  | Raises (e : exn)
  | Beyond.
Arguments Returns {A} a.
Arguments Raises {A} e.
Arguments Beyond {A}.

#[export] Instance outcome_ret : MRet outcome := fun A a => Returns a.
#[export] Instance outcome_bind : MBind outcome := fun A B f m =>
  match m with
  | Returns a => f a
  | Raises e => Raises e
  | Beyond => Beyond
  end.
#[export] Instance outcome_fmap : FMap outcome := fun A B f m =>
  match m with
  | Returns a => Returns (f a)
  | Raises e => Raises e
  | Beyond => Beyond
  end.

(** *** [str] helpers *)

Definition is_char (c d : ascii) : bool := Ascii.eqb c d.
#[global] Arguments is_char : simpl never.

(** [c in s] for a one-character [c]. *)
Fixpoint contains (c : ascii) (s : string) : bool :=
  match s with
  | EmptyString => false
  | String d s' => is_char c d || contains c s'
  end.

(** [s.split(sep)] for a one-character separator: never the empty list. *)
Fixpoint split (sep : ascii) (s : string) : list string :=
  match s with
  | EmptyString => [EmptyString]
  | String c s' =>
      if is_char sep c then EmptyString :: split sep s'
      else match split sep s' with
           | [] => [String c EmptyString]
           | h :: t => String c h :: t
           end
  end.

(** [sep.join(l)]. *)
Fixpoint join (sep : string) (l : list string) : string :=
  match l with
  | [] => EmptyString
  | [x] => x
  | x :: l' => x +:+ sep +:+ join sep l'
  end.

(** [s.partition(c)] when [c] occurs: the text before the first [c] and the
    text after it; [None] when [c] does not occur. *)
Fixpoint cut (c : ascii) (s : string) : option (string * string) :=
  match s with
  | EmptyString => None
  | String d s' =>
      if is_char c d then Some (EmptyString, s')
      else match cut c s' with
           | Some (a, b) => Some (String d a, b)
           | None => None
           end
  end.

(** [s.rpartition(c)] when [c] occurs: the text up to and including the last
    [c], and the text after it. *)
Fixpoint rcut (c : ascii) (s : string) : option (string * string) :=
  match s with
  | EmptyString => None
  | String d s' =>
      match rcut c s' with
      | Some (a, b) => Some (String d a, b)
      | None => if is_char c d then Some (String d EmptyString, s') else None
      end
  end.

(** [s.startswith(p)]. *)
Fixpoint startswith (p s : string) : bool :=
  match p, s with
  | EmptyString, _ => true
  | String a p', String b s' => is_char a b && startswith p' s'
  | String _ _, EmptyString => false
  end.

Definition is_upper (c : ascii) : bool :=
  (65 <=? nat_of_ascii c)%nat && (nat_of_ascii c <=? 90)%nat.
Definition is_lower (c : ascii) : bool :=
  (97 <=? nat_of_ascii c)%nat && (nat_of_ascii c <=? 122)%nat.
Definition is_digit (c : ascii) : bool :=
  (48 <=? nat_of_ascii c)%nat && (nat_of_ascii c <=? 57)%nat.
Definition is_alpha (c : ascii) : bool := is_upper c || is_lower c.
Definition is_ascii (c : ascii) : bool := (nat_of_ascii c <? 128)%nat.

Definition char_lower (c : ascii) : ascii :=
  if is_upper c then ascii_of_nat (nat_of_ascii c + 32) else c.

Fixpoint lower (s : string) : string :=
  match s with
  | EmptyString => EmptyString
  | String c s' => String (char_lower c) (lower s')
  end.

Fixpoint all_chars (p : ascii -> bool) (s : string) : bool :=
  match s with
  | EmptyString => true
  | String c s' => p c && all_chars p s'
  end.

Fixpoint filter_chars (p : ascii -> bool) (s : string) : string :=
  match s with
  | EmptyString => EmptyString
  | String c s' => if p c then String c (filter_chars p s') else filter_chars p s'
  end.

(** [str(n)] for an [int]. *)
Definition str_of_int (n : Z) : string := NilZero.string_of_int (Z.to_int n).

(** *** Values and [str.format_map]

    The parameters of a route are strings or integers. *)
Inductive value : Type :=
  | VStr (s : string)
  | VInt (n : Z).

(** [format(v, '')], that is [str(v)]. *)
Definition str_of_value (v : value) : string :=
  match v with
  | VStr s => s
  | VInt n => str_of_int n
  end.

Definition PY_SSIZE_T_MAX : Z := 2 ^ 63 - 1.

(** [get_integer] of the formatter: the value of an all-digit name, an
    overflow as soon as the digits read so far exceed [Py_ssize_t], or not
    an integer at the first other character. *)
Inductive index : Type :=
  | Integer (n : Z)
  | Overflow
  | NotInteger.

Fixpoint get_integer (acc : Z) (s : string) : index :=
  match s with
  | EmptyString => Integer acc
  | String c s' =>
      if is_digit c then
        let d := Z.of_nat (nat_of_ascii c) - 48 in
        if acc >? (PY_SSIZE_T_MAX - d) / 10 then Overflow
        else get_integer (acc * 10 + d) s'
      else NotInteger
  end.

(** A replacement field [{name}] under [format_map]: an empty or numeric
    name is positional, which [format_map] refuses; any other name is
    looked up in the mapping. *)
Definition format_field (kwargs : gmap string value) (name : string) : outcome string :=
  match get_integer 0 name with
  | Overflow => Raises (ValueError "Too many decimal digits in format string")
  | Integer _ => Raises (ValueError "Format string contains positional fields")
  | NotInteger =>
      match kwargs !! name with
      | Some v => Returns (str_of_value v)
      | None => Raises (KeyError name)
      end
  end.

(** Characters after which a field is more than a plain name: a
    conversion, a format spec, an attribute, an index; and bytes of
    non-ASCII text, which may be digits. *)
Definition field_special (c : ascii) : bool :=
  is_char c "!" || is_char c ":" || is_char c "." || is_char c "["
  || negb (is_ascii c).

(** The formatter's scan, left to right.  [field = None]: literal text, in
    which a doubled brace stands for one brace and a single closing brace
    is an error.  [field = Some name]: inside a replacement field, with the
    part of its name read so far. *)
Fixpoint format_scan (kwargs : gmap string value) (field : option string)
    (s : string) : outcome string :=
  match s with
  | EmptyString =>
      match field with
      | None => Returns EmptyString
      | Some _ => Raises (ValueError "expected '}' before end of string")
      end
  | String c r =>
      match field with
      | None =>
          if is_char c "{" then
            match r with
            | EmptyString => Raises (ValueError "Single '{' encountered in format string")
            | String d r' =>
                if is_char d "{" then String "{" <$> format_scan kwargs None r'
                else format_scan kwargs (Some EmptyString) r
            end
          else if is_char c "}" then
            match r with
            | EmptyString => Raises (ValueError "Single '}' encountered in format string")
            | String d r' =>
                if is_char d "}" then String "}" <$> format_scan kwargs None r'
                else Raises (ValueError "Single '}' encountered in format string")
            end
          else String c <$> format_scan kwargs None r
      | Some name =>
          if is_char c "}" then
            text ← format_field kwargs name;
            rest ← format_scan kwargs None r;
            mret (text +:+ rest)
          else if is_char c "{" then Raises (ValueError "unexpected '{' in field name")
          else if field_special c then Beyond
          else format_scan kwargs (Some (name +:+ String c EmptyString)) r
      end
  end.

(** [s.format_map(kwargs)]. *)
Definition format_map (s : string) (kwargs : gmap string value) : outcome string :=
  format_scan kwargs None s.

End Py.

(** ** [urllib.parse] (CPython 3.11): [quote] and [urljoin]

    [Route.__init__] calls [urljoin(BASE, path)] and [quote(v)].  Both are
    modelled after the library's code, function by function. *)

Module Urllib.
Import Py.

(** [_ALWAYS_SAFE] together with the default [safe='/'] of [quote]. *)
Definition quote_safe (c : ascii) : bool :=
  is_upper c || is_lower c || is_digit c
  || is_char c "_" || is_char c "." || is_char c "-" || is_char c "~"
  || is_char c "/".

Definition hex_digit (n : nat) : ascii :=
  match n with
  | 0 => "0" | 1 => "1" | 2 => "2" | 3 => "3" | 4 => "4" | 5 => "5"
  | 6 => "6" | 7 => "7" | 8 => "8" | 9 => "9" | 10 => "A" | 11 => "B"
  | 12 => "C" | 13 => "D" | 14 => "E" | _ => "F"
  end%nat%char.

(** [_Quoter.__missing__]: a safe byte stands for itself, any other byte
    becomes ['%{:02X}'.format(b)]. *)
Definition quote_byte (c : ascii) : string :=
  if quote_safe c then String c EmptyString
  else String "%" (String (hex_digit (nat_of_ascii c / 16))
         (String (hex_digit (nat_of_ascii c mod 16)) EmptyString)).

(** [quote(string)] with the defaults [safe='/'], UTF-8, strict. *)
Fixpoint quote (s : string) : string :=
  match s with
  | EmptyString => EmptyString
  | String c s' => quote_byte c +:+ quote s'
  end.

Definition uses_relative : list string :=
  [""; "ftp"; "http"; "gopher"; "nntp"; "imap"; "wais"; "file"; "https";
   "shttp"; "mms"; "prospero"; "rtsp"; "rtspu"; "sftp"; "svn"; "svn+ssh";
   "ws"; "wss"].

Definition uses_netloc : list string :=
  [""; "ftp"; "http"; "gopher"; "nntp"; "telnet"; "imap"; "wais"; "file";
   "mms"; "https"; "shttp"; "snews"; "prospero"; "rtsp"; "rtspu"; "rsync";
   "svn"; "svn+ssh"; "sftp"; "nfs"; "git"; "git+ssh"; "ws"; "wss"].

Definition uses_params : list string :=
  [""; "ftp"; "hdl"; "prospero"; "http"; "imap"; "https"; "shttp"; "rtsp";
   "rtspu"; "sip"; "sips"; "mms"; "sftp"; "tel"].

Definition mem (s : string) (l : list string) : bool := existsb (String.eqb s) l.

Definition scheme_char (c : ascii) : bool :=
  is_lower c || is_upper c || is_digit c
  || is_char c "+" || is_char c "-" || is_char c ".".

(** [_WHATWG_C0_CONTROL_OR_SPACE]: the characters up to and including
    the space. *)
Definition c0_or_space (c : ascii) : bool := (nat_of_ascii c <=? 32)%nat.

Fixpoint lstrip (s : string) : string :=
  match s with
  | EmptyString => EmptyString
  | String c s' => if c0_or_space c then lstrip s' else s
  end.

Fixpoint rstrip (s : string) : string :=
  match s with
  | EmptyString => EmptyString
  | String c s' =>
      match rstrip s' with
      | EmptyString => if c0_or_space c then EmptyString else String c EmptyString
      | r => String c r
      end
  end.

Definition strip (s : string) : string := rstrip (lstrip s).

(** [_UNSAFE_URL_BYTES_TO_REMOVE]: tab, carriage return, line feed. *)
Definition unsafe_byte (c : ascii) : bool :=
  (nat_of_ascii c =? 9)%nat || (nat_of_ascii c =? 13)%nat
  || (nat_of_ascii c =? 10)%nat.

Definition remove_unsafe (s : string) : string :=
  filter_chars (fun c => negb (unsafe_byte c)) s.

Definition netloc_delim (c : ascii) : bool :=
  is_char c "/" || is_char c "?" || is_char c "#".

(** The text before the first character satisfying [p], and the rest. *)
Fixpoint break_at (p : ascii -> bool) (s : string) : string * string :=
  match s with
  | EmptyString => (EmptyString, EmptyString)
  | String c s' =>
      if p c then (EmptyString, s)
      else let '(a, b) := break_at p s' in (String c a, b)
  end.

(** [_splitnetloc(url, 2)] on the text after the leading ["//"]. *)
Definition _splitnetloc (after_slashes : string) : string * string :=
  break_at netloc_delim after_slashes.

Record SplitResult : Type := mkSplit {
  s_scheme : string; s_netloc : string; s_path : string;
  s_query : string; s_fragment : string }.

Record ParseResult : Type := mkParse {
  scheme : string; netloc : string; path : string; params : string;
  query : string; fragment : string }.

(** The scheme test and split of [urlsplit]: [i = url.find(':')], [i > 0],
    an ASCII letter first, only scheme characters before the colon. *)
Definition split_scheme (scheme url : string) : string * string :=
  match cut ":" url with
  | Some (String c pre, post) =>
      if is_ascii c && is_alpha c && all_chars scheme_char (String c pre)
      then (lower (String c pre), post)
      else (scheme, url)
  | _ => (scheme, url)
  end.

(** The authority branch of [urlsplit]: the two bracket tests raise
    [ValueError]; a bracketed host ([_check_bracketed_netloc], which parses
    IP addresses) and a non-ASCII host ([_checknetloc], which normalises
    under NFKC) are not modelled. *)
Definition split_authority (url : string) : outcome (string * string) :=
  match url with
  | String c (String d rest) =>
      if is_char c "/" && is_char d "/" then
        let '(netloc, url') := _splitnetloc rest in
        let lb := contains "[" netloc in
        let rb := contains "]" netloc in
        if (lb && negb rb) || (rb && negb lb)
        then Raises (ValueError "Invalid IPv6 URL")
        else if lb && rb then Beyond
        else if negb (all_chars is_ascii netloc) then Beyond
        else Returns (netloc, url')
      else Returns (EmptyString, url)
  | _ => Returns (EmptyString, url)
  end.

(** [urlsplit(url, scheme)], with [allow_fragments=True]. *)
Definition urlsplit (url scheme : string) : outcome SplitResult :=
  let url := remove_unsafe (lstrip url) in
  let scheme := remove_unsafe (strip scheme) in
  let '(scheme, url) := split_scheme scheme url in
  '(netloc, url) ← split_authority url;
  let '(url, fragment) :=
    match cut "#" url with Some (a, b) => (a, b) | None => (url, EmptyString) end in
  let '(url, query) :=
    match cut "?" url with Some (a, b) => (a, b) | None => (url, EmptyString) end in
  mret (mkSplit scheme netloc url query fragment).

(** [_splitparams(url)], called when [';' in url]. *)
Definition _splitparams (url : string) : string * string :=
  match rcut "/" url with
  | Some (head, tail) =>
      match cut ";" tail with
      | Some (a, b) => (head +:+ a, b)
      | None => (url, EmptyString)
      end
  | None =>
      match cut ";" url with
      | Some (a, b) => (a, b)
      | None => (url, EmptyString)
      end
  end.

(** [urlparse(url, scheme)]. *)
Definition urlparse (url scheme : string) : outcome ParseResult :=
  r ← urlsplit url scheme;
  let '(url, params) :=
    if mem (s_scheme r) uses_params && contains ";" (s_path r)
    then _splitparams (s_path r) else (s_path r, EmptyString) in
  mret (mkParse (s_scheme r) (s_netloc r) url params (s_query r) (s_fragment r)).

Definition nonempty (s : string) : bool :=
  match s with EmptyString => false | _ => true end.

(** [urlunsplit((scheme, netloc, url, query, fragment))]. *)
Definition urlunsplit (scheme netloc url query fragment : string) : string :=
  let url :=
    if nonempty netloc
       || (nonempty scheme && mem scheme uses_netloc && negb (startswith "//" url))
    then "//" +:+ netloc
         +:+ (if nonempty url && negb (startswith "/" url) then "/" +:+ url else url)
    else url in
  let url := if nonempty scheme then scheme +:+ ":" +:+ url else url in
  let url := if nonempty query then url +:+ "?" +:+ query else url in
  if nonempty fragment then url +:+ "#" +:+ fragment else url.

(** [urlunparse((scheme, netloc, url, params, query, fragment))]. *)
Definition urlunparse (r : ParseResult) : string :=
  let url := if nonempty (params r) then path r +:+ ";" +:+ params r else path r in
  urlunsplit (scheme r) (netloc r) url (query r) (fragment r).

(** [del base_parts[-1]] when the last part is not empty. *)
Definition drop_file (parts : list string) : list string :=
  match List.last parts EmptyString with
  | EmptyString => parts
  | _ => removelast parts
  end.

(** [segments[1:-1] = filter(None, segments[1:-1])]. *)
Definition squeeze (segments : list string) : list string :=
  match segments with
  | [] => []
  | [x] => [x]
  | x :: rest => (x :: List.filter nonempty (removelast rest) ++ [List.last rest EmptyString])%list
  end.

(** The loop over [segments]: [".."] pops (ignoring an empty stack),
    ["."] is skipped, anything else is appended. *)
Fixpoint resolve (resolved segments : list string) : list string :=
  match segments with
  | [] => resolved
  | seg :: rest =>
      if String.eqb seg ".." then resolve (removelast resolved) rest
      else if String.eqb seg "." then resolve resolved rest
      else resolve (resolved ++ [seg])%list rest
  end.

Definition is_dot (seg : string) : bool := String.eqb seg "." || String.eqb seg "..".

(** [urljoin(base, url)]. *)
Definition urljoin (base url : string) : outcome string :=
  if negb (nonempty base) then mret url
  else if negb (nonempty url) then mret base
  else
    b ← urlparse base EmptyString;
    u ← urlparse url (scheme b);
    if negb (String.eqb (scheme u) (scheme b)) || negb (mem (scheme u) uses_relative)
    then mret url
    else if mem (scheme u) uses_netloc && nonempty (netloc u)
    then mret (urlunparse u)
    else
      let netloc' := if mem (scheme u) uses_netloc then netloc b else netloc u in
      if negb (nonempty (path u)) && negb (nonempty (params u))
      then
        mret (urlunparse (mkParse (scheme u) netloc' (path b) (params b)
                (if nonempty (query u) then query u else query b) (fragment u)))
      else
        let base_parts := drop_file (split "/" (path b)) in
        let segments :=
          if startswith "/" (path u) then split "/" (path u)
          else squeeze (base_parts ++ split "/" (path u))%list in
        let resolved := resolve [] segments in
        let resolved :=
          if is_dot (List.last segments EmptyString) then (resolved ++ [EmptyString])%list
          else resolved in
        let joined := join "/" resolved in
        mret (urlunparse (mkParse (scheme u) netloc'
                (if nonempty joined then joined else "/")
                (params u) (query u) (fragment u))).

End Urllib.

(** ** [aiohttp]: what the client reads from a response *)

Module Aiohttp.
Import Py.

(** A received response: [response.status], [response.reason],
    [response.headers] and the bytes that [response.read()] gives. *)
Record ClientResponse : Type := mkResponse {
  status : Z;
  reason : string;
  headers : list (string * string);
  body : string }.

(** [ClientResponse.ok]: [400 > self.status]. *)
Definition ok (r : ClientResponse) : bool := 400 >? status r.

(** [ClientResponse.raise_for_status]: nothing for a status below 400, a
    [ClientResponseError] with the status, the reason and the headers
    otherwise. *)
Definition raise_for_status (r : ClientResponse) : outcome unit :=
  if ok r then Returns tt
  else Raises (ClientResponseError (status r) (reason r) (headers r)).

End Aiohttp.

(** ** [tatsu.http] *)

Module Http.
Import Py.

(** *** [Route] *)

Definition BASE : string := "https://api.tatsu.gg/v1/".

Record Route : Type := mkRoute {
  method : string;
  path : string;
  url : string }.

(** [quote(v) if isinstance(v, str) else v]. *)
Definition quote_value (v : value) : value :=
  match v with
  | VStr s => VStr (Urllib.quote s)
  | VInt n => VInt n
  end.

(** [Route.__init__(method, path, **parameters)]: the path is joined to
    [BASE]; the result is formatted only when there are parameters. *)
Definition Route__init__ (method path : string) (parameters : gmap string value)
    : outcome Route :=
  url ← Urllib.urljoin BASE path;
  url ← (if decide (parameters = ∅) then mret url
         else format_map url (quote_value <$> parameters));
  mret (mkRoute method path url).

(** *** The client and its environment *)

(** Modelled from the spec: [enums.ActionType] is declared in [enums.py],
    which is not among the sources; the spec writes an action by its name
    ([ADD]), and the endpoints only pass it on. *)
Record ActionType : Type := Action { action_name : string }.

Inductive json_value : Type :=
  | JAction (a : ActionType)
  | JInt (n : Z).

(** The keyword arguments of [request] that the endpoints use, passed on to
    [aiohttp.ClientSession.request]. *)
Record kwargs : Type := mkKwargs {
  kw_headers : option (gmap string string);
  kw_json : option (list (string * json_value));
  kw_params : option (list (string * Z)) }.

Definition no_kwargs : kwargs := mkKwargs None None None.

(** [aiohttp.ClientSession], as far as the client looks at it. *)
Record ClientSession : Type := mkSession { closed : bool }.

Record HTTPClient : Type := mkClient {
  token : string;
  _session : option ClientSession;
  user_agent : string;
  (** [asyncio.Event]: [true] when set. *)
  _ratelimit_unlock : bool;
  (** [datetime] in microseconds, or [None]. *)
  _ratelimit_reset_time : option Z }.

(** What a call does to its environment, in order. *)
Inductive event : Type :=
  | Request (method url : string) (kw : kwargs)
      (** [self._session.request(method, url, **kwargs)] *)
  | AwaitUnlock
      (** suspended in [self._ratelimit_unlock.wait()] *)
  | Clear
      (** [self._ratelimit_unlock.clear()] *)
  | Sleep (wait_delta : Z)
      (** [asyncio.sleep(wait_delta.total_seconds())], in microseconds *)
  | SetUnlock
      (** [self._ratelimit_unlock.set()] *).

(** The environment of a call: the responses the transport will give, each
    with the reading of [datetime.now()] at its receipt, and the events so
    far. *)
Record World : Type := mkWorld {
  replies : list (Z * Aiohttp.ClientResponse);
  trace : list event }.

Record state : Type := mkState { client : HTTPClient; world : World }.

(** Code that reads and writes the client and the world, and returns,
    raises or leaves the model. *)
Definition M (A : Type) : Type := state -> outcome A * state.

#[export] Instance M_ret : MRet M := fun A a st => (Returns a, st).
#[export] Instance M_bind : MBind M := fun A B f m st =>
  match m st with
  | (Returns a, st') => f a st'
  | (Raises e, st') => (Raises e, st')
  | (Beyond, st') => (Beyond, st')
  end.

Definition raise {A : Type} (e : exn) : M A := fun st => (Raises e, st).
Definition lift {A : Type} (o : outcome A) : M A := fun st => (o, st).
Definition self : M HTTPClient := fun st => (Returns (client st), st).
Definition update (f : HTTPClient -> HTTPClient) : M unit :=
  fun st => (Returns tt, mkState (f (client st)) (world st)).
Definition emit (e : event) : M unit := fun st =>
  (Returns tt,
   mkState (client st) (mkWorld (replies (world st)) (trace (world st) ++ [e])%list)).

Definition set_session (s : option ClientSession) (c : HTTPClient) : HTTPClient :=
  mkClient (token c) s (user_agent c) (_ratelimit_unlock c) (_ratelimit_reset_time c).
Definition set_unlock (b : bool) (c : HTTPClient) : HTTPClient :=
  mkClient (token c) (_session c) (user_agent c) b (_ratelimit_reset_time c).
Definition set_reset_time (t : option Z) (c : HTTPClient) : HTTPClient :=
  mkClient (token c) (_session c) (user_agent c) (_ratelimit_unlock c) t.

(** [async with self._session.request(method, url, **kwargs) as response]
    followed by [now = datetime.now()]: the request is issued and the next
    reply of the transport is received; a transport with no reply left
    fails the connection. *)
Definition session_request (method url : string) (kw : kwargs)
    : M (Z * Aiohttp.ClientResponse) := fun st =>
  let tr := (trace (world st) ++ [Request method url kw])%list in
  match replies (world st) with
  | [] => (Raises ClientConnectionError, mkState (client st) (mkWorld [] tr))
  | r :: rest => (Returns r, mkState (client st) (mkWorld rest tr))
  end.

(** [timedelta(seconds=n)]. *)
Definition seconds (n : Z) : Z := n * 1000000.

(** [HTTPClient.__init__(token, session=session)]; the user agent is the
    format of the package version, [sys.version_info] and the aiohttp
    version. *)
Definition HTTPClient__init__ (token : string) (session : option ClientSession)
    (version : string) (python_major python_minor : Z) (aiohttp_version : string)
    : HTTPClient :=
  mkClient token session
    ("Tatsu (https://github.com/Sachaa-Thanasius/Tatsu " +:+ version
     +:+ " Python/" +:+ str_of_int python_major +:+ "." +:+ str_of_int python_minor
     +:+ " aiohttp/" +:+ aiohttp_version
     +:+ " (Currently testing in beta, please don't ban me)")
    true None.

(** [HTTPClient._start_session]. *)
Definition _start_session : M unit :=
  c ← self;
  match _session c with
  | Some s => if closed s then update (set_session (Some (mkSession false))) else mret tt
  | None => update (set_session (Some (mkSession false)))
  end.

(** [HTTPClient.close]. *)
Definition close : M unit :=
  c ← self;
  match _session c with
  | Some s => if closed s then mret tt else update (set_session (Some (mkSession true)))
  | None => mret tt
  end.

(** [not self._ratelimit_reset_time or self._ratelimit_reset_time < now]:
    no reset time is tracked, or the tracked one lies before [now]. *)
Definition expired (reset_time : option Z) (now : Z) : bool :=
  match reset_time with
  | None => true
  | Some t => t <? now
  end.

(** [self._ratelimit_reset_time - now]; [None] has no subtraction. *)
Definition minus_now (reset_time : option Z) (now : Z) : outcome Z :=
  match reset_time with
  | Some t => Returns (t - now)
  | None =>
      Raises (TypeError "unsupported operand type(s) for -: 'NoneType' and 'datetime.datetime'")
  end.

(** The headers that [request] hands to the session: the caller's, with
    the two fields of the client assigned on top. *)
Definition request_headers (c : HTTPClient) (kw : kwargs) : gmap string string :=
  <["Authorization" := token c]> (<["User-Agent" := user_agent c]> (default ∅ (kw_headers kw))).

(** [for _tries in range(tries)] of [request], and the [raise] after it. *)
Fixpoint attempts (tries : nat) (method url : string) (kw : kwargs) : M string :=
  match tries with
  | O => raise (RuntimeError "Unreachable code in HTTP handling.")
  | S tries' =>
      '(now, response) ← session_request method url kw;
      c ← self;
      (if expired (_ratelimit_reset_time c) now
       then update (set_reset_time (Some (now + seconds 61))) else mret tt);;
      if Aiohttp.status response =? 429 then
        update (set_unlock false);; emit Clear;;
        c ← self;
        wait_delta ← lift (minus_now (_ratelimit_reset_time c) now);
        emit (Sleep wait_delta);;
        update (set_unlock true);; emit SetUnlock;;
        attempts tries' method url kw
      else
        (if negb ((Aiohttp.status response =? 200) || (Aiohttp.status response =? 429))
         then lift (Aiohttp.raise_for_status response) else mret tt);;
        mret (Aiohttp.body response)
  end.

(** [HTTPClient.request(route, **kwargs)].  A call that finds the event
    cleared is suspended until another call sets it. *)
Definition request (route : Route) (kw : kwargs) : M string :=
  let method := method route in
  let url := url route in
  c ← self;
  let kw := mkKwargs (Some (request_headers c kw)) (kw_json kw) (kw_params kw) in
  _start_session;;
  c ← self;
  (if negb (_ratelimit_unlock c)
   then emit AwaitUnlock;; update (set_unlock true) else mret tt);;
  attempts 5 method url kw.

(** *** Endpoints

    Each endpoint checks its arguments, builds its route and calls
    [request]; the run of the coroutine it returns is part of the model. *)

Definition get_guild_member_points (guild_id member_id : Z) : M string :=
  route ← lift (Route__init__ "GET" "guilds/{guild_id}/members/{member_id}/points"
                  {[ "guild_id" := VInt guild_id; "member_id" := VInt member_id ]});
  request route no_kwargs.

Definition modify_guild_member_points (guild_id member_id : Z) (action : ActionType)
    (amount : Z) : M string :=
  if (amount <? 1) || (amount >? 100000)
  then raise (ValueError "Points amount must be between 1 and 100,000.")
  else
    route ← lift (Route__init__ "PATCH" "guilds/{guild_id}/members/{member_id}/points"
                    {[ "guild_id" := VInt guild_id; "member_id" := VInt member_id ]});
    let json_data := [("action", JAction action); ("amount", JInt amount)] in
    request route (mkKwargs None (Some json_data) None).

Definition modify_guild_member_score (guild_id member_id : Z) (action : ActionType)
    (amount : Z) : M string :=
  if (amount <? 1) || (amount >? 100000)
  then raise (ValueError "Score amount must be between 1 and 100,000.")
  else
    route ← lift (Route__init__ "PATCH" "guilds/{guild_id}/members/{member_id}/score"
                    {[ "guild_id" := VInt guild_id; "member_id" := VInt member_id ]});
    let json_data := [("action", JAction action); ("amount", JInt amount)] in
    request route (mkKwargs None (Some json_data) None).

Definition get_guild_member_ranking (guild_id user_id : Z) (period : string) : M string :=
  route ← lift (Route__init__ "GET" "guilds/{guild_id}/rankings/members/{user_id}/{time_range}"
                  {[ "guild_id" := VInt guild_id; "user_id" := VInt user_id;
                     "time_range" := VStr period ]});
  request route no_kwargs.

Definition get_guild_rankings (guild_id : Z) (period : string) (offset : Z) : M string :=
  if offset <? 0
  then raise (ValueError "Pagination offset must be greater than or equal to 0.")
  else
    route ← lift (Route__init__ "GET" "guilds/{guild_id}/rankings/{time_range}"
                    {[ "guild_id" := VInt guild_id; "time_range" := VStr period ]});
    let params := [("offset", offset)] in
    request route (mkKwargs None None (Some params)).

Definition get_user_profile (user_id : Z) : M string :=
  route ← lift (Route__init__ "GET" "users/{user_id}/profile" {[ "user_id" := VInt user_id ]});
  request route no_kwargs.

End Http.

(** * Vocabulary of the properties *)

(** ** Path templates *)

Module Template.
Import Py.

(** A path template, piece by piece: literal text and [{name}]
    placeholders. *)
Inductive piece : Type :=
  | Text (s : string)
  | Field (name : string).

Definition render_piece (p : piece) : string :=
  match p with
  | Text s => s
  | Field name => "{" +:+ name +:+ "}"
  end.

(** The template as the string handed to [Route]. *)
Fixpoint render (t : list piece) : string :=
  match t with
  | [] => ""
  | p :: t' => render_piece p +:+ render t'
  end.

Definition brace (c : ascii) : bool := is_char c "{" || is_char c "}".

Definition brace_free (s : string) : bool := all_chars (fun c => negb (brace c)) s.

Definition name_char (c : ascii) : bool := negb (brace c) && negb (field_special c).

(** A placeholder name: not empty, not starting with a digit, without
    braces and without the characters of a conversion, a format spec, an
    attribute or an index. *)
Definition plain_name (name : string) : bool :=
  match name with
  | EmptyString => false
  | String c _ => negb (is_digit c)
  end && all_chars name_char name.

Definition piece_ok (p : piece) : bool :=
  match p with
  | Text s => brace_free s
  | Field name => plain_name name
  end.

Definition well_formed (t : list piece) : bool := forallb piece_ok t.

(** What stands for a piece in the URL: the text itself, or the value of
    the placeholder as text. *)
Definition expand (kwargs : gmap string value) (p : piece) : string :=
  match p with
  | Text s => s
  | Field name =>
      match kwargs !! name with
      | Some v => str_of_value v
      | None => ""
      end
  end.

Fixpoint substitute (kwargs : gmap string value) (t : list piece) : string :=
  match t with
  | [] => ""
  | p :: t' => expand kwargs p +:+ substitute kwargs t'
  end.

(** The first placeholder of the template without an entry. *)
Fixpoint first_missing (kwargs : gmap string value) (t : list piece) : option string :=
  match t with
  | [] => None
  | Text _ :: t' => first_missing kwargs t'
  | Field name :: t' =>
      match kwargs !! name with
      | Some _ => first_missing kwargs t'
      | None => Some name
      end
  end.

(** A character of a plain path: no control character or space, and none
    of the delimiters of a scheme, a query, a fragment or parameters. *)
Definition path_char (c : ascii) : bool :=
  negb (Urllib.c0_or_space c) && negb (is_char ":" c) && negb (is_char "?" c)
  && negb (is_char "#" c) && negb (is_char ";" c).

(** A relative path of ordinary segments: plain characters, no empty
    segment except possibly the last (so no leading slash), no [.] and no
    [..] segment. *)
Definition relative_path (p : string) : bool :=
  all_chars path_char p
  && forallb Urllib.nonempty (removelast (split "/" p))
  && forallb (fun seg => negb (Urllib.is_dot seg)) (split "/" p).

(** The text that stands for a parameter in the URL: a string
    percent-encoded, an integer in decimal. *)
Definition encode (v : value) : string :=
  match v with
  | VStr s => Urllib.quote s
  | VInt n => str_of_int n
  end.

(** What stands for a piece of the template in the URL. *)
Definition fill (parameters : gmap string value) (p : piece) : string :=
  match p with
  | Text s => s
  | Field name =>
      match parameters !! name with
      | Some v => encode v
      | None => ""
      end
  end.

(** The template with every placeholder replaced by the encoded value of
    its parameter. *)
Fixpoint filled (parameters : gmap string value) (t : list piece) : string :=
  match t with
  | [] => ""
  | p :: t' => fill parameters p +:+ filled parameters t'
  end.

Definition profile_template : list piece :=
  [Text "users/"; Field "user_id"; Text "/ranking/"; Field "period"].

End Template.

(** ** Calls of the executor *)

Module Call.
Import Py Http.

(** The suspension of a call that finds the event cleared. *)
Definition awaited (c : HTTPClient) : list event :=
  if _ratelimit_unlock c then [] else [AwaitUnlock].

(** The keyword arguments that reach the session. *)
Definition sent (c : HTTPClient) (kw : kwargs) : kwargs :=
  mkKwargs (Some (request_headers c kw)) (kw_json kw) (kw_params kw).

(** The client when the attempt loop starts: a session exists, the event
    is set. *)
Definition entered (c : HTTPClient) : HTTPClient :=
  set_unlock true
    (match _session c with
     | Some s => if closed s then set_session (Some (mkSession false)) c else c
     | None => set_session (Some (mkSession false)) c
     end).

(** The reset time tracked after a response received at [now]:
    [now + 61 s] when there was none or when it lay before [now], the one
    there was otherwise. *)
Definition refresh (reset_time : option Z) (now : Z) : Z :=
  match reset_time with
  | None => now + seconds 61
  | Some t => if t <? now then now + seconds 61 else t
  end.

(** The client after a response received at [now], and after the wait that
    follows a 429. *)
Definition received (now : Z) (c : HTTPClient) : HTTPClient :=
  if expired (_ratelimit_reset_time c) now
  then set_reset_time (Some (now + seconds 61)) c else c.

Definition waited (now : Z) (c : HTTPClient) : HTTPClient :=
  set_unlock true (received now c).

Definition rate_limited (reply : Z * Aiohttp.ClientResponse) : Prop :=
  Aiohttp.status reply.2 = 429.

Definition exhausted : exn := RuntimeError "Unreachable code in HTTP handling.".

Definition carries (h : gmap string string) (e : event) : Prop :=
  match e with
  | Request _ _ kw => kw_headers kw = Some h
  | _ => True
  end.

(** A client, a route and a response for the examples. *)
Definition a_client : HTTPClient := HTTPClient__init__ "token" None "0.1.0" 3 11 "3.8.4".

Definition a_route : Route :=
  mkRoute "GET" "guilds/{guild_id}/members/{member_id}/points"
    "https://api.tatsu.gg/v1/guilds/10/members/20/points".

Definition too_many : Aiohttp.ClientResponse :=
  Aiohttp.mkResponse 429 "Too Many Requests" [] "".

Definition fine : Aiohttp.ClientResponse :=
  Aiohttp.mkResponse 200 "OK" [] "{}".

Definition created : Aiohttp.ClientResponse :=
  Aiohttp.mkResponse 201 "Created" [] "{}".

Definition a_state : state := mkState a_client (mkWorld [(seconds 5, too_many)] []).

End Call.

(** ** Events of a call *)

Module Events.
Import Py Http Call.

(** The number of requests among some events. *)
Fixpoint requests (l : list event) : nat :=
  match l with
  | [] => 0
  | Request _ _ _ :: l' => S (requests l')
  | _ :: l' => requests l'
  end.

(** The durations of the sleeps among some events, in order. *)
Fixpoint sleeps (l : list event) : list Z :=
  match l with
  | [] => []
  | Sleep d :: l' => d :: sleeps l'
  | _ :: l' => sleeps l'
  end.

(** The events that a run added to the trace it started from. *)
Definition added (before : World) (after : state) : list event :=
  drop (length (trace before)) (trace (world after)).

(** The ways in which the loop ends. *)
Inductive ending (consumed : list (Z * Aiohttp.ClientResponse)) : outcome string -> Prop :=
  | ends_with_body r :
      In r (map snd consumed) -> Aiohttp.status r < 400 ->
      ending consumed (Returns (Aiohttp.body r))
  | ends_with_response_error r :
      In r (map snd consumed) -> 400 <= Aiohttp.status r -> Aiohttp.status r <> 429 ->
      ending consumed
        (Raises (ClientResponseError (Aiohttp.status r) (Aiohttp.reason r) (Aiohttp.headers r)))
  | ends_exhausted :
      Forall rate_limited consumed -> ending consumed (Raises exhausted)
  | ends_without_reply :
      Forall rate_limited consumed -> ending consumed (Raises ClientConnectionError).

(** Two worlds for the examples. *)
Definition a_world : World :=
  mkWorld [(seconds 5, too_many); (seconds 67, too_many); (seconds 128, fine)] [].

Definition two_calls : World :=
  mkWorld [(seconds 5, fine); (seconds 20, too_many); (seconds 66, fine)] [].

End Events.

(** ** Paths from the root *)

Module Rooted.
Import Py.

(** A path from the root of the host: one leading slash (not two), plain
    characters, no [.] and no [..] segment. *)
Definition rooted_path (p : string) : bool :=
  startswith "/" p && negb (startswith "//" p)
  && all_chars Template.path_char p
  && forallb (fun seg => negb (Urllib.is_dot seg)) (split "/" p).

(** The scheme and host of [BASE]. *)
Definition HOST : string := "https://api.tatsu.gg".

(** The characters that [quote] leaves or produces. *)
Definition quoted_char (c : ascii) : bool := Urllib.quote_safe c || is_char c "%".

End Rooted.

(** * Properties *)


(** ** Facts about the string helpers *)

Module StrFacts.
Import Py.

Lemma is_char_sym c d : is_char c d = is_char d c.
Proof. apply Ascii.eqb_sym. Qed.

Lemma is_char_eq c d : is_char c d = true -> c = d.
Proof. apply Ascii.eqb_eq. Qed.

Lemma all_chars_app p a b :
  all_chars p (a +:+ b) = all_chars p a && all_chars p b.
Proof. induction a as [|c a IH]; simpl; [reflexivity|]. now rewrite IH, andb_assoc. Qed.

(** A character that no character of [s] may be does not occur in [s]. *)
Lemma all_chars_contains p c s :
  p c = false -> all_chars p s = true -> contains c s = false.
Proof.
  intros Hc. induction s as [|d s IH]; cbn; [reflexivity|].
  intros [Hd Hs]%andb_true_iff. rewrite (IH Hs), orb_false_r.
  destruct (is_char c d) eqn:E; [|reflexivity].
  apply is_char_eq in E. congruence.
Qed.

Lemma all_chars_weaken (p q : ascii -> bool) s :
  (forall c, p c = true -> q c = true) -> all_chars p s = true -> all_chars q s = true.
Proof.
  intros Hpq. induction s as [|c s IH]; cbn; [reflexivity|].
  intros [Hc Hs]%andb_true_iff. now rewrite (Hpq _ Hc), IH.
Qed.

Lemma cut_absent c s : contains c s = false -> cut c s = None.
Proof.
  induction s as [|d s IH]; cbn; [reflexivity|].
  intros [Hd Hs]%orb_false_iff. now rewrite Hd, IH.
Qed.

Lemma filter_chars_all p s : all_chars p s = true -> filter_chars p s = s.
Proof.
  induction s as [|c s IH]; cbn; [reflexivity|].
  intros [Hc Hs]%andb_true_iff. now rewrite Hc, IH.
Qed.

Lemma split_not_nil sep s : split sep s <> [].
Proof.
  destruct s as [|c s]; cbn; [discriminate|].
  destruct (is_char sep c); [discriminate|]. destruct (split sep s); discriminate.
Qed.

Lemma join_first_char sep c h t :
  join sep (String c h :: t) = String c (join sep (h :: t)).
Proof. destruct t; reflexivity. Qed.

(** Joining the parts of a split gives the text back. *)
Lemma join_split sep s : join (String sep EmptyString) (split sep s) = s.
Proof.
  induction s as [|c s IH]; [reflexivity|].
  pose proof (split_not_nil sep s) as Hne.
  cbn [split]. destruct (is_char sep c) eqn:E.
  - apply is_char_eq in E. subst c.
    destruct (split sep s) as [|h t]; [contradiction|].
    change (join (String sep EmptyString) (EmptyString :: h :: t))
      with (String sep (join (String sep EmptyString) (h :: t))).
    now rewrite IH.
  - destruct (split sep s) as [|h t]; [contradiction|].
    now rewrite join_first_char, IH.
Qed.

Lemma removelast_last {A} (l : list A) d :
  l <> [] -> removelast l ++ [List.last l d] = l.
Proof. intros H. symmetry. now apply app_removelast_last. Qed.

End StrFacts.

(** ** [urljoin] on relative paths *)

Module UrlFacts.
Import Py Urllib StrFacts Template.

Lemma path_char_inv c :
  path_char c = true ->
  c0_or_space c = false /\ is_char ":" c = false /\ is_char "?" c = false
  /\ is_char "#" c = false /\ is_char ";" c = false.
Proof.
  unfold path_char. rewrite !andb_true_iff, !negb_true_iff. tauto.
Qed.

Lemma lstrip_path p : all_chars path_char p = true -> lstrip p = p.
Proof.
  destruct p as [|c p]; cbn; [reflexivity|].
  intros [Hc _]%andb_true_iff. apply path_char_inv in Hc as [-> _]. reflexivity.
Qed.

Lemma unsafe_is_c0 c : c0_or_space c = false -> unsafe_byte c = false.
Proof.
  unfold c0_or_space, unsafe_byte. intros H%Nat.leb_gt.
  repeat (apply orb_false_iff; split); apply Nat.eqb_neq; lia.
Qed.

Lemma remove_unsafe_path p : all_chars path_char p = true -> remove_unsafe p = p.
Proof.
  intros H. apply filter_chars_all. revert H. apply all_chars_weaken.
  intros c Hc. apply path_char_inv in Hc as [Hc _].
  now rewrite (unsafe_is_c0 _ Hc).
Qed.

Lemma path_lacks p c :
  path_char c = false -> all_chars path_char p = true -> contains c p = false.
Proof. apply all_chars_contains. Qed.

(** [urlsplit] of a plain path that does not start with two slashes: the
    default scheme and the path, nothing else. *)
Lemma urlsplit_path p :
  all_chars path_char p = true ->
  startswith "/" p = false ->
  urlsplit p "https" = Returns (mkSplit "https" "" p "" "").
Proof.
  intros Hp Hrel. unfold urlsplit.
  rewrite (lstrip_path _ Hp), (remove_unsafe_path _ Hp).
  change (remove_unsafe (strip "https")) with "https".
  unfold split_scheme. rewrite (cut_absent ":" p) by now apply path_lacks.
  assert (split_authority p = Returns ("", p)) as ->.
  { destruct p as [|c [|d p]]; try reflexivity.
    unfold split_authority. cbn in Hrel. rewrite andb_true_r in Hrel.
    rewrite (is_char_sym c), Hrel. reflexivity. }
  cbn [mbind outcome_bind].
  rewrite (cut_absent "#" p) by now apply path_lacks.
  rewrite (cut_absent "?" p) by now apply path_lacks.
  reflexivity.
Qed.

Lemma urlparse_path p :
  all_chars path_char p = true ->
  startswith "/" p = false ->
  urlparse p "https" = Returns (mkParse "https" "" p "" "" "").
Proof.
  intros Hp Hrel. unfold urlparse. rewrite (urlsplit_path _ Hp Hrel).
  cbn [mbind outcome_bind s_scheme s_path s_netloc s_query s_fragment].
  rewrite (path_lacks p ";") by (reflexivity || assumption).
  rewrite andb_false_r. reflexivity.
Qed.

Lemma urlparse_BASE :
  urlparse Http.BASE "" = Returns (mkParse "https" "api.tatsu.gg" "/v1/" "" "" "").
Proof. reflexivity. Qed.

(** Without dot segments the loop of [urljoin] appends every segment. *)
Lemma resolve_plain acc segments :
  forallb (fun seg => negb (is_dot seg)) segments = true ->
  resolve acc segments = acc ++ segments.
Proof.
  revert acc. induction segments as [|seg rest IH]; intros acc; cbn.
  - now rewrite app_nil_r.
  - intros [Hseg Hrest]%andb_true_iff. unfold is_dot in Hseg.
    apply negb_true_iff, orb_false_iff in Hseg as [H1 H2].
    rewrite H1, H2, IH by assumption. now rewrite <- app_assoc.
Qed.

Lemma filter_nonempty l : forallb nonempty l = true -> List.filter nonempty l = l.
Proof.
  induction l as [|x l IH]; cbn; [reflexivity|].
  intros [Hx Hl]%andb_true_iff. now rewrite Hx, IH.
Qed.

(** The segments of the base directory [/v1/] followed by those of a
    relative path with no empty segment inside. *)
Lemma squeeze_v1 segments :
  segments <> [] ->
  forallb nonempty (removelast segments) = true ->
  squeeze (["" ; "v1"; ""] ++ segments) = "" :: "v1" :: segments.
Proof.
  intros Hne Hall. unfold squeeze. cbn [app].
  assert (removelast ("v1" :: "" :: segments) = "v1" :: "" :: removelast segments) as ->.
  { destruct segments as [|s l]; [contradiction|]. reflexivity. }
  assert (List.last ("v1" :: "" :: segments) "" = List.last segments "") as ->.
  { destruct segments as [|s l]; [contradiction|]. reflexivity. }
  cbn [List.filter nonempty]. rewrite (filter_nonempty _ Hall).
  cbn [app]. now rewrite removelast_last.
Qed.

Lemma relative_path_start p : relative_path p = true -> startswith "/" p = false.
Proof.
  destruct p as [|c p]; [reflexivity|].
  unfold relative_path. intros [[_ H]%andb_true_iff _]%andb_true_iff.
  cbn. rewrite andb_true_r. destruct (is_char "/" c) eqn:E; [|reflexivity].
  exfalso. cbn in H. rewrite E in H. pose proof (split_not_nil "/" p).
  destruct (split "/" p); [contradiction|]. discriminate.
Qed.


(** Joined to [BASE], a relative path of ordinary segments is appended to
    it. *)
Lemma urljoin_relative p :
  relative_path p = true -> urljoin Http.BASE p = Returns (Http.BASE +:+ p).
Proof.
  intros Hrel. pose proof (relative_path_start _ Hrel) as Hstart.
  pose proof Hrel as [[Hchars Hinner]%andb_true_iff Hdots]%andb_true_iff.
  destruct p as [|c p]; [reflexivity|].
  set (q := String c p) in *.
  unfold urljoin. change (nonempty Http.BASE) with true. change (nonempty q) with true.
  cbn [negb]. rewrite urlparse_BASE. cbn [mbind outcome_bind scheme].
  rewrite (urlparse_path _ Hchars Hstart).
  cbn [mbind outcome_bind scheme netloc path params query fragment].
  change (negb (String.eqb "https" "https") || negb (mem "https" uses_relative)) with false.
  change (mem "https" uses_netloc && nonempty "") with false.
  change (negb (nonempty q) && negb (nonempty "")) with false.
  change (mem "https" uses_netloc) with true.
  cbn iota. rewrite Hstart.
  change (drop_file (split "/" "/v1/")) with ["" ; "v1"; ""].
  pose proof (split_not_nil "/" q) as Hne. pose proof (join_split "/" q) as Hj.
  destruct (split "/" q) as [|s l] eqn:Hsplit; [contradiction|].
  rewrite squeeze_v1 by assumption.
  assert (forallb (fun seg => negb (is_dot seg)) ("" :: "v1" :: s :: l) = true) as Hall
    by exact Hdots.
  rewrite (resolve_plain [] _ Hall). cbn [app].
  assert (is_dot (List.last ("" :: "v1" :: s :: l) "") = false) as ->.
  { change (List.last ("" :: "v1" :: s :: l) "") with (List.last (s :: l) "").
    rewrite <- (removelast_last (s :: l) "" Hne), forallb_app in Hdots.
    apply andb_true_iff in Hdots as [_ Hlast].
    cbn [forallb] in Hlast. rewrite andb_true_r in Hlast.
    now apply negb_true_iff in Hlast. }
  change (join "/" ("" :: "v1" :: s :: l)) with ("/v1/" +:+ join "/" (s :: l)).
  rewrite Hj. reflexivity.
Qed.

End UrlFacts.

(** ** [format_map] on templates *)

Module FormatFacts.
Import Py StrFacts Template.

Lemma append_nil_r s : s +:+ "" = s.
Proof.
  induction s as [|c s IH]; [reflexivity|].
  change (String c (s +:+ "") = String c s). now rewrite IH.
Qed.

Lemma append_assoc a b c : (a +:+ b) +:+ c = a +:+ (b +:+ c).
Proof.
  induction a as [|x a IH]; [reflexivity|].
  change (String x ((a +:+ b) +:+ c) = String x (a +:+ (b +:+ c))). now rewrite IH.
Qed.

Lemma fmap_prepend (x : outcome string) c s :
  String c <$> (String.append s <$> x) = String.append (String c s) <$> x.
Proof. destruct x; reflexivity. Qed.

(** Literal text without braces is copied. *)
Lemma scan_text kwargs s r :
  brace_free s = true ->
  format_scan kwargs None (s +:+ r) = String.append s <$> format_scan kwargs None r.
Proof.
  unfold brace_free. induction s as [|c s IH]; cbn [all_chars].
  - intros _. change ("" +:+ r) with r.
    destruct (format_scan kwargs None r); reflexivity.
  - intros [Hc Hs]%andb_true_iff.
    apply negb_true_iff, orb_false_iff in Hc as [Hopen Hclose].
    change (String c s +:+ r) with (String c (s +:+ r)).
    cbn [format_scan]. rewrite Hopen, Hclose, (IH Hs). apply fmap_prepend.
Qed.

(** Inside a field, the characters of a name are collected up to the
    closing brace. *)
Lemma scan_name kwargs acc name r :
  all_chars name_char name = true ->
  format_scan kwargs (Some acc) (name +:+ String "}" r)
  = text ← format_field kwargs (acc +:+ name);
    rest ← format_scan kwargs None r;
    mret (text +:+ rest).
Proof.
  revert acc. induction name as [|c name IH]; intros acc; cbn [all_chars].
  - intros _. rewrite append_nil_r. reflexivity.
  - intros [Hc Hn]%andb_true_iff.
    apply andb_true_iff in Hc as [Hb Hs].
    apply negb_true_iff, orb_false_iff in Hb as [Hopen Hclose].
    apply negb_true_iff in Hs.
    change (String c name +:+ String "}" r) with (String c (name +:+ String "}" r)).
    cbn [format_scan]. rewrite Hclose, Hopen, Hs, (IH _ Hn), append_assoc. reflexivity.
Qed.

Lemma plain_name_not_integer name :
  plain_name name = true -> get_integer 0 name = NotInteger.
Proof.
  destruct name as [|c name]; [discriminate|].
  unfold plain_name. intros [Hc _]%andb_true_iff.
  apply negb_true_iff in Hc. cbn [get_integer]. now rewrite Hc.
Qed.

(** An opening brace that is not doubled starts a field. *)
Lemma scan_open kwargs c r :
  is_char c "{" = false ->
  format_scan kwargs None (String "{" (String c r))
  = format_scan kwargs (Some "") (String c r).
Proof.
  intros H. cbn [format_scan]. change (is_char "{" "{") with true.
  cbn iota. rewrite H. reflexivity.
Qed.

(** A placeholder with a plain name is looked up in the mapping. *)
Lemma scan_field kwargs name r :
  plain_name name = true ->
  format_scan kwargs None (render_piece (Field name) +:+ r)
  = match kwargs !! name with
    | Some v => String.append (str_of_value v) <$> format_scan kwargs None r
    | None => Raises (KeyError name)
    end.
Proof.
  intros Hname. pose proof (plain_name_not_integer _ Hname) as Hint.
  unfold plain_name in Hname. apply andb_true_iff in Hname as [_ Hchars].
  unfold render_piece. rewrite !append_assoc.
  change ("{" +:+ name +:+ "}" +:+ r) with (String "{" (name +:+ String "}" r)).
  destruct name as [|c name]; [discriminate|].
  pose proof Hchars as Hc. cbn [all_chars] in Hc.
  apply andb_true_iff in Hc as [[Hb _]%andb_true_iff _].
  apply negb_true_iff, orb_false_iff in Hb as [Hopen _].
  change (String c name +:+ String "}" r) with (String c (name +:+ String "}" r)).
  rewrite (scan_open _ _ _ Hopen).
  change (String c (name +:+ String "}" r)) with (String c name +:+ String "}" r).
  rewrite (scan_name _ _ _ _ Hchars).
  change ("" +:+ String c name) with (String c name).
  unfold format_field. rewrite Hint.
  destruct (kwargs !! String c name); [|reflexivity].
  cbn [mbind outcome_bind]. destruct (format_scan kwargs None r); reflexivity.
Qed.

(** Formatting a well-formed template: the first placeholder without an
    entry raises [KeyError]; with every placeholder supplied the result is
    the template with each placeholder replaced by its value. *)
Lemma format_render kwargs t :
  well_formed t = true ->
  format_map (render t) kwargs
  = match first_missing kwargs t with
    | Some name => Raises (KeyError name)
    | None => Returns (substitute kwargs t)
    end.
Proof.
  unfold format_map. induction t as [|[s|name] t IH]; cbn [well_formed forallb piece_ok].
  - reflexivity.
  - intros [Hs Ht]%andb_true_iff. cbn [render render_piece first_missing substitute expand].
    rewrite (scan_text _ _ _ Hs), (IH Ht).
    destruct (first_missing kwargs t); reflexivity.
  - intros [Hn Ht]%andb_true_iff. cbn [render first_missing substitute expand].
    rewrite (scan_field _ _ _ Hn), (IH Ht).
    destruct (kwargs !! name); [|reflexivity].
    destruct (first_missing kwargs t); reflexivity.
Qed.

End FormatFacts.

(** ** The URL of a route *)

Module RouteSpec.
Import Py Http StrFacts UrlFacts Template FormatFacts.

Lemma filled_substitute parameters t :
  substitute (quote_value <$> parameters) t = filled parameters t.
Proof.
  induction t as [|[s|name] t IH]; cbn [substitute filled expand fill];
    [reflexivity | now rewrite IH |].
  rewrite lookup_fmap, IH. destruct (parameters !! name) as [[]|]; reflexivity.
Qed.

Lemma first_missing_fmap (f : value -> value) kwargs t :
  first_missing (f <$> kwargs) t = first_missing kwargs t.
Proof.
  induction t as [|[s|name] t IH]; cbn [first_missing]; [reflexivity | exact IH |].
  rewrite lookup_fmap. destruct (kwargs !! name); cbn; [exact IH | reflexivity].
Qed.

Lemma first_missing_none kwargs t :
  (forall name, In (Field name) t -> is_Some (kwargs !! name)) ->
  first_missing kwargs t = None.
Proof.
  induction t as [|[s|name] t IH]; intros H; cbn [first_missing].
  - reflexivity.
  - apply IH. intros name Hin. apply H. now right.
  - destruct (H name (or_introl eq_refl)) as [v ->].
    apply IH. intros name' Hin. apply H. now right.
Qed.

Lemma first_missing_some kwargs t name :
  In (Field name) t -> kwargs !! name = None ->
  exists missing,
    first_missing kwargs t = Some missing
    /\ In (Field missing) t /\ kwargs !! missing = None.
Proof.
  induction t as [|[s|name'] t IH]; intros Hin Hnone; [destruct Hin| |].
  - destruct Hin as [Heq|Hin]; [discriminate|].
    destruct (IH Hin Hnone) as (missing & Hm & Hi & Hl).
    exists missing. cbn [first_missing]. repeat split; [assumption | now right | assumption].
  - cbn [first_missing]. destruct (kwargs !! name') as [v|] eqn:E.
    + destruct Hin as [Heq|Hin]; [congruence|].
      destruct (IH Hin Hnone) as (missing & Hm & Hi & Hl).
      exists missing. repeat split; [assumption | now right | assumption].
    + exists name'. repeat split; [now left | assumption].
Qed.

(** A template without placeholders is its own substitution. *)
Lemma substitute_no_field kwargs t :
  first_missing ∅ t = None -> substitute kwargs t = render t.
Proof.
  induction t as [|[s|name] t IH]; cbn [first_missing substitute render expand render_piece].
  - reflexivity.
  - intros H. now rewrite (IH H).
  - rewrite lookup_empty. discriminate.
Qed.

(** *** No brace survives the substitution *)

Lemma brace_free_app a b : brace_free (a +:+ b) = brace_free a && brace_free b.
Proof. apply all_chars_app. Qed.

Lemma hex_digit_not_brace n : brace (Urllib.hex_digit n) = false.
Proof. do 16 (destruct n as [|n]; [reflexivity|]). reflexivity. Qed.

Lemma safe_not_brace c : Urllib.quote_safe c = true -> brace c = false.
Proof.
  intros Hsafe. unfold brace. apply orb_false_iff.
  split; apply not_true_is_false; intros ->%is_char_eq; discriminate.
Qed.

Lemma quote_brace_free s : brace_free (Urllib.quote s) = true.
Proof.
  induction s as [|c s IH]; [reflexivity|].
  cbn [Urllib.quote]. rewrite brace_free_app, IH, andb_true_r.
  unfold Urllib.quote_byte. destruct (Urllib.quote_safe c) eqn:E.
  - unfold brace_free. cbn [all_chars]. now rewrite (safe_not_brace _ E).
  - unfold brace_free. cbn [all_chars]. now rewrite !hex_digit_not_brace.
Qed.

Lemma uint_brace_free d : brace_free (NilEmpty.string_of_uint d) = true.
Proof. induction d; cbn [NilEmpty.string_of_uint]; try exact IHd; reflexivity. Qed.

Lemma str_of_int_brace_free n : brace_free (str_of_int n) = true.
Proof.
  assert (forall d, brace_free (NilZero.string_of_uint d) = true) as Huint.
  { intros d. unfold NilZero.string_of_uint.
    destruct d; try reflexivity; apply uint_brace_free. }
  unfold str_of_int, NilZero.string_of_int.
  destruct (Z.to_int n) as [d|d]; [apply Huint|].
  unfold brace_free. cbn [all_chars]. change (negb (brace "-")) with true.
  apply Huint.
Qed.

Lemma encode_brace_free v : brace_free (encode v) = true.
Proof. destruct v; [apply quote_brace_free | apply str_of_int_brace_free]. Qed.

Lemma filled_brace_free parameters t :
  well_formed t = true -> first_missing parameters t = None ->
  brace_free (filled parameters t) = true.
Proof.
  induction t as [|[s|name] t IH]; cbn [well_formed forallb piece_ok first_missing filled fill].
  - reflexivity.
  - intros [Hs Ht]%andb_true_iff Hm. now rewrite brace_free_app, Hs, (IH Ht Hm).
  - intros [_ Ht]%andb_true_iff Hm. destruct (parameters !! name) as [v|]; [|discriminate].
    now rewrite brace_free_app, encode_brace_free, (IH Ht Hm).
Qed.

(** [Route] on a relative path of ordinary segments: the path is appended
    to [BASE], and the result is formatted when there are parameters. *)
Lemma Route_relative method p parameters :
  relative_path p = true ->
  Route__init__ method p parameters
  = url ← (if decide (parameters = ∅) then Returns (BASE +:+ p)
           else format_map (BASE +:+ p) (quote_value <$> parameters));
    Returns (mkRoute method p url).
Proof.
  intros Hrel. unfold Route__init__. now rewrite (urljoin_relative _ Hrel).
Qed.

Lemma format_BASE kwargs s :
  format_map (BASE +:+ s) kwargs = String.append BASE <$> format_map s kwargs.
Proof. apply scan_text. reflexivity. Qed.










End RouteSpec.

(** ** The request executor *)

Module ClientSpec.
Import Py Http Call.

(** Unfolding of the monad of [request]. *)
Ltac run :=
  cbv [mbind mret M_bind M_ret raise lift self update emit session_request
       _start_session] in *; cbn [client world replies trace fst snd] in *.

Lemma request_unfold route kw c w :
  request route kw (mkState c w)
  = attempts 5 (method route) (url route) (sent c kw)
      (mkState (entered c) (mkWorld (replies w) (trace w ++ awaited c))).
Proof.
  unfold request, entered, awaited, sent. run.
  destruct c as [tok ses ua unlock reset], w as [rs tr]; cbn.
  destruct ses as [[[]]|]; destruct unlock; cbn; rewrite ?app_nil_r; reflexivity.
Qed.


Lemma received_reset_time now c :
  _ratelimit_reset_time (received now c) = Some (refresh (_ratelimit_reset_time c) now).
Proof.
  unfold received, refresh, expired.
  destruct (_ratelimit_reset_time c) as [t|] eqn:E; [|reflexivity].
  destruct (t <? now); [reflexivity | exact E].
Qed.

Lemma waited_reset_time now c :
  _ratelimit_reset_time (waited now c) = Some (refresh (_ratelimit_reset_time c) now).
Proof. unfold waited. cbn. apply received_reset_time. Qed.

(** One turn of the loop, by the reply it meets. *)
Lemma attempts_no_reply n m u kw c tr :
  attempts (S n) m u kw (mkState c (mkWorld [] tr))
  = (Raises ClientConnectionError, mkState c (mkWorld [] (tr ++ [Request m u kw]))).
Proof. reflexivity. Qed.

Lemma attempts_429 n m u kw c now r rest tr :
  Aiohttp.status r = 429 ->
  attempts (S n) m u kw (mkState c (mkWorld ((now, r) :: rest) tr))
  = attempts n m u kw
      (mkState (waited now c)
         (mkWorld rest
            (tr ++ [Request m u kw; Clear;
                    Sleep (refresh (_ratelimit_reset_time c) now - now); SetUnlock]))).
Proof.
  intros H. cbn [attempts]. run. rewrite H. cbn [Z.eqb Pos.eqb].
  unfold waited, received, refresh, expired.
  destruct (_ratelimit_reset_time c) as [t|] eqn:E.
  - destruct (t <? now); cbn; rewrite ?E; cbn; rewrite <- !app_assoc; reflexivity.
  - cbn. rewrite <- !app_assoc. reflexivity.
Qed.

Lemma attempts_final n m u kw c now r rest tr :
  Aiohttp.status r <> 429 ->
  attempts (S n) m u kw (mkState c (mkWorld ((now, r) :: rest) tr))
  = (if Aiohttp.status r =? 200 then Returns (Aiohttp.body r)
     else _ ← Aiohttp.raise_for_status r; Returns (Aiohttp.body r),
     mkState (received now c) (mkWorld rest (tr ++ [Request m u kw]))).
Proof.
  intros H. cbn [attempts]. run.
  destruct (Z.eqb_spec (Aiohttp.status r) 429) as [|_]; [contradiction|].
  rewrite orb_false_r. unfold received.
  destruct (expired (_ratelimit_reset_time c) now); cbn;
    (destruct (Aiohttp.status r =? 200); cbn; [reflexivity|]);
    destruct (Aiohttp.raise_for_status r) as [[]| |]; reflexivity.
Qed.

Lemma entered_reset_time c :
  _ratelimit_reset_time (entered c) = _ratelimit_reset_time c.
Proof. unfold entered. destruct (_session c) as [[[]]|]; reflexivity. Qed.

Lemma refresh_not_before reset_time now : now <= refresh reset_time now.
Proof.
  unfold refresh, seconds. destruct reset_time as [t|]; [|lia].
  destruct (Z.ltb_spec t now); lia.
Qed.

(** The unlock event is set when a client is made, and every call leaves
    it set. *)
Lemma attempts_keep_unlock n m u kw st :
  _ratelimit_unlock (client st) = true ->
  _ratelimit_unlock (client ((attempts n m u kw st).2)) = true.
Proof.
  revert st. induction n as [|n IH]; intros [c [rs tr]] Hc; [exact Hc|].
  destruct rs as [|[now r] rest]; [exact Hc|].
  destruct (Z.eq_dec (Aiohttp.status r) 429) as [E|E].
  - rewrite (attempts_429 _ _ _ _ _ _ _ _ _ E). apply IH. reflexivity.
  - rewrite (attempts_final _ _ _ _ _ _ _ _ _ E). cbn [snd client] in *.
    unfold received. now destruct (expired (_ratelimit_reset_time c) now).
Qed.

Lemma request_leaves_unlock_set route kw st :
  _ratelimit_unlock (client ((request route kw st).2)) = true.
Proof.
  destruct st as [c w]. rewrite request_unfold. apply attempts_keep_unlock. reflexivity.
Qed.

(** C1: a call whose transport answers 429, 429, 200 issues exactly three
    requests, sleeps exactly twice, each time for the tracked reset time
    minus the time of receipt (never a negative wait), with the event
    cleared before and set after each sleep, and returns the body of the
    200 response. *)
Theorem request_429_429_200 route kw c w t1 r1 t2 r2 t3 r3 rest :
  _ratelimit_unlock c = true ->
  replies w = (t1, r1) :: (t2, r2) :: (t3, r3) :: rest ->
  Aiohttp.status r1 = 429 ->
  Aiohttp.status r2 = 429 ->
  Aiohttp.status r3 = 200 ->
  let d1 := refresh (_ratelimit_reset_time c) t1 in
  let d2 := refresh (Some d1) t2 in
  let issue := Request (method route) (url route) (sent c kw) in
  request route kw (mkState c w)
  = (Returns (Aiohttp.body r3),
     mkState (received t3 (waited t2 (waited t1 (entered c))))
       (mkWorld rest
          (trace w ++ [issue; Clear; Sleep (d1 - t1); SetUnlock;
                       issue; Clear; Sleep (d2 - t2); SetUnlock; issue])))
  /\ 0 <= d1 - t1 /\ 0 <= d2 - t2.
Proof.
  intros Hopen Hw H1 H2 H3 d1 d2 issue. split.
  - rewrite request_unfold, Hw. unfold awaited. rewrite Hopen, app_nil_r.
    rewrite (attempts_429 _ _ _ _ _ _ _ _ _ H1).
    rewrite (attempts_429 _ _ _ _ _ _ _ _ _ H2).
    rewrite attempts_final by lia. rewrite H3. cbn [Z.eqb Pos.eqb].
    rewrite <- !app_assoc. cbn [app].
    rewrite waited_reset_time, entered_reset_time. reflexivity.
  - pose proof (refresh_not_before (_ratelimit_reset_time c) t1).
    pose proof (refresh_not_before (Some d1) t2). subst d1 d2. lia.
Qed.

Lemma request_429_429_200_witness :
  (request a_route no_kwargs
     (mkState a_client
        (mkWorld [(seconds 5, too_many); (seconds 67, too_many);
                  (seconds 128, Aiohttp.mkResponse 200 "OK" [] "{}")] []))).1
  = Returns "{}".
Proof.
  pose proof (request_429_429_200 a_route no_kwargs a_client
    (mkWorld [(seconds 5, too_many); (seconds 67, too_many);
              (seconds 128, Aiohttp.mkResponse 200 "OK" [] "{}")] [])
    _ _ _ _ _ _ _ eq_refl eq_refl eq_refl eq_refl eq_refl) as [H _].
  rewrite H. reflexivity.
Defined.


(** The reset time after the loop, from the times of receipt. *)
Lemma attempts_reset_time n m u kw st :
  exists received_at,
    replies (world st)
    = received_at ++ replies (world ((attempts n m u kw st).2))
    /\ _ratelimit_reset_time (client ((attempts n m u kw st).2))
       = fold_left (fun t now => Some (refresh t (fst now))) received_at
           (_ratelimit_reset_time (client st)).
Proof.
  revert st. induction n as [|n IH]; intros [c [rs tr]].
  - exists []. split; reflexivity.
  - destruct rs as [|[now r] rest].
    + exists []. split; reflexivity.
    + destruct (Z.eq_dec (Aiohttp.status r) 429) as [E|E].
      * rewrite (attempts_429 _ _ _ _ _ _ _ _ _ E).
        destruct (IH (mkState (waited now c)
          (mkWorld rest (tr ++ [Request m u kw; Clear;
             Sleep (refresh (_ratelimit_reset_time c) now - now); SetUnlock]))))
          as (l & Hl & Hr).
        exists ((now, r) :: l). split.
        -- cbn [world replies] in *. rewrite Hl at 1. reflexivity.
        -- rewrite Hr. cbn [client fold_left fst]. now rewrite waited_reset_time.
      * rewrite (attempts_final _ _ _ _ _ _ _ _ _ E).
        exists [(now, r)]. split; [reflexivity|].
        cbn [snd client fold_left fst]. apply received_reset_time.
Qed.





(** The loop ends in its final [raise] exactly when each of its attempts
    met a 429. *)
Lemma attempts_exhausted n m u kw st :
  (attempts n m u kw st).1 = Raises exhausted
  <-> length (take n (replies (world st))) = n
      /\ Forall rate_limited (take n (replies (world st))).
Proof.
  revert st. induction n as [|n IH]; intros [c [rs tr]].
  - cbn. split; [intros _; split; [reflexivity | constructor] | reflexivity].
  - destruct rs as [|[now r] rest].
    + rewrite attempts_no_reply. cbn. split; [discriminate | intros [H _]; discriminate].
    + cbn [world replies take length].
      destruct (Z.eq_dec (Aiohttp.status r) 429) as [E|E].
      * rewrite (attempts_429 _ _ _ _ _ _ _ _ _ E), IH. cbn [world replies].
        split.
        -- intros [Hl Hf]. split; [now rewrite Hl | constructor; assumption].
        -- intros [Hl Hf]. split; [now injection Hl | now inversion Hf].
      * rewrite (attempts_final _ _ _ _ _ _ _ _ _ E). cbn [fst].
        split.
        -- destruct (Aiohttp.status r =? 200); [discriminate|].
           unfold Aiohttp.raise_for_status. destruct (Aiohttp.ok r); discriminate.
        -- intros [_ Hf]. inversion Hf; contradiction.
Qed.

(** C8: a call ends with the [RuntimeError] that follows the loop exactly
    when the transport answered its five attempts with 429; that error is
    neither the [ClientResponseError] of a response nor the [ValueError]
    of an argument. *)
Theorem five_429_exhaust_the_attempts route kw c w :
  ((request route kw (mkState c w)).1 = Raises exhausted
   <-> length (take 5 (replies w)) = 5%nat /\ Forall rate_limited (take 5 (replies w)))
  /\ (forall status message headers, exhausted <> ClientResponseError status message headers)
  /\ (forall msg, exhausted <> ValueError msg).
Proof.
  split; [|split; intros; discriminate].
  rewrite request_unfold, attempts_exhausted. reflexivity.
Qed.

(** The events of the loop: every request carries the headers it was
    given, and a loop of at least one turn issues a request. *)
Lemma attempts_trace h n m u kw st :
  kw_headers kw = Some h ->
  exists new,
    trace (world ((attempts n m u kw st).2)) = trace (world st) ++ new
    /\ Forall (carries h) new
    /\ (n <> 0%nat -> In (Request m u kw) new).
Proof.
  intros Hh. revert st. induction n as [|n IH]; intros [c [rs tr]].
  - exists []. cbn. rewrite app_nil_r. repeat split; [constructor | congruence].
  - destruct rs as [|[now r] rest].
    + exists [Request m u kw]. rewrite attempts_no_reply. cbn.
      repeat split; [|now left]. repeat constructor. exact Hh.
    + destruct (Z.eq_dec (Aiohttp.status r) 429) as [E|E].
      * rewrite (attempts_429 _ _ _ _ _ _ _ _ _ E).
        destruct (IH (mkState (waited now c)
          (mkWorld rest (tr ++ [Request m u kw; Clear;
             Sleep (refresh (_ratelimit_reset_time c) now - now); SetUnlock]))))
          as (new & Ht & Hf & _).
        exists ([Request m u kw; Clear;
                 Sleep (refresh (_ratelimit_reset_time c) now - now); SetUnlock] ++ new).
        split; [|split].
        -- rewrite Ht. cbn [world trace]. now rewrite <- app_assoc.
        -- apply Forall_app. split; [|exact Hf]. repeat constructor. exact Hh.
        -- intros _. now left.
      * exists [Request m u kw]. rewrite (attempts_final _ _ _ _ _ _ _ _ _ E). cbn.
        repeat split; [|now left]. repeat constructor. exact Hh.
Qed.

(** C7: every request that a call hands to the session carries the
    caller's headers with the client's user agent under [User-Agent] and
    its token under [Authorization], every other field as the caller gave
    it; a call issues at least one request. *)
Theorem required_headers_on_every_request route kw c w :
  let h := request_headers c kw in
  (exists new,
     trace (world ((request route kw (mkState c w)).2)) = trace w ++ new
     /\ Forall (carries h) new
     /\ In (Request (method route) (url route) (sent c kw)) new)
  /\ h !! "User-Agent" = Some (user_agent c)
  /\ h !! "Authorization" = Some (token c)
  /\ (forall k : string,
        h !! k = if decide (k = "Authorization") then Some (token c)
                 else if decide (k = "User-Agent") then Some (user_agent c)
                 else default ∅ (kw_headers kw) !! k).
Proof.
  intros h. split; [|split; [|split]].
  - rewrite request_unfold.
    destruct (attempts_trace h 5 (method route) (url route) (sent c kw)
      (mkState (entered c) (mkWorld (replies w) (trace w ++ awaited c))) eq_refl)
      as (new & Ht & Hf & Hin).
    exists (awaited c ++ new). split; [|split].
    + rewrite Ht. cbn [world trace]. now rewrite <- app_assoc.
    + apply Forall_app. split; [|exact Hf].
      unfold awaited. destruct (_ratelimit_unlock c); repeat constructor.
    + apply in_or_app. right. apply Hin. discriminate.
  - unfold h, request_headers.
    rewrite lookup_insert_ne by discriminate. apply lookup_insert_eq.
  - apply lookup_insert_eq.
  - intros k. unfold h, request_headers.
    destruct (decide (k = "Authorization")) as [->|H1]; [apply lookup_insert_eq|].
    rewrite lookup_insert_ne by congruence.
    destruct (decide (k = "User-Agent")) as [->|H2]; [apply lookup_insert_eq|].
    now rewrite lookup_insert_ne by congruence.
Qed.

(** The two scenarios of the specification: the points of a member are
    requested with GET at the member's URL and the body of the 200 response
    is returned as it is; a score is modified with PATCH and a JSON body of
    the action and the amount. *)
Example get_member_points_scenario :
  (get_guild_member_points 10 20 (mkState a_client (mkWorld [(seconds 5, fine)] []))).1
  = Returns "{}"
  /\ trace (world (get_guild_member_points 10 20
              (mkState a_client (mkWorld [(seconds 5, fine)] []))).2)
     = [Request "GET" "https://api.tatsu.gg/v1/guilds/10/members/20/points"
          (sent a_client no_kwargs)].
Proof. split; reflexivity. Qed.

Example modify_member_score_scenario :
  trace (world (modify_guild_member_score 10 20 (Action "ADD") 50
           (mkState a_client (mkWorld [(seconds 5, fine)] []))).2)
  = [Request "PATCH" "https://api.tatsu.gg/v1/guilds/10/members/20/score"
       (sent a_client
          (mkKwargs None (Some [("action", JAction (Action "ADD")); ("amount", JInt 50)])
             None))].
Proof. reflexivity. Qed.

(** C4: an amount below 1 or above 100000, and an offset below 0, make the
    endpoint raise [ValueError] with the client and the world as they
    were: no route is built and no request is issued. *)
Theorem invalid_argument_raises_before_any_request :
  (forall st guild_id member_id action amount,
     amount < 1 \/ 100000 < amount ->
     modify_guild_member_points guild_id member_id action amount st
     = (Raises (ValueError "Points amount must be between 1 and 100,000."), st)
     /\ modify_guild_member_score guild_id member_id action amount st
        = (Raises (ValueError "Score amount must be between 1 and 100,000."), st))
  /\ (forall st guild_id period offset,
        offset < 0 ->
        get_guild_rankings guild_id period offset st
        = (Raises (ValueError "Pagination offset must be greater than or equal to 0."), st)).
Proof.
  split.
  - intros st g m a amount H.
    unfold modify_guild_member_points, modify_guild_member_score.
    replace ((amount <? 1) || (amount >? 100000)) with true; [split; reflexivity|].
    symmetry. apply orb_true_iff. rewrite Z.ltb_lt, Z.gtb_ltb, Z.ltb_lt. exact H.
  - intros st g p offset H. unfold get_guild_rankings.
    now rewrite (proj2 (Z.ltb_lt offset 0) H).
Qed.

Lemma invalid_argument_raises_before_any_request_witness :
  (modify_guild_member_points 10 20 (Action "ADD") 0 a_state).2 = a_state
  /\ (modify_guild_member_score 10 20 (Action "ADD") 100001 a_state).2 = a_state
  /\ (get_guild_rankings 10 "all" (-1) a_state).2 = a_state.
Proof.
  destruct invalid_argument_raises_before_any_request as [Hamount Hoffset].
  destruct (Hamount a_state 10 20 (Action "ADD") 0 ltac:(lia)) as [-> _].
  destruct (Hamount a_state 10 20 (Action "ADD") 100001 ltac:(lia)) as [_ ->].
  rewrite (Hoffset a_state 10 "all" (-1) ltac:(lia)).
  repeat split.
Defined.

End ClientSpec.

(** * Further properties *)

(** ** Routes *)

Module RouteMore.
Import Py Http StrFacts UrlFacts Template FormatFacts RouteSpec Rooted.

(** [Route] on a well-formed relative template, by the first placeholder
    without an entry. *)
Lemma Route_of_template method t (parameters : gmap string value) :
  parameters <> ∅ ->
  well_formed t = true ->
  relative_path (render t) = true ->
  Route__init__ method (render t) parameters
  = match first_missing parameters t with
    | Some name => Raises (KeyError name)
    | None => Returns (mkRoute method (render t) (BASE +:+ filled parameters t))
    end.
Proof.
  intros Hne Hwf Hrel. rewrite (Route_relative _ _ _ Hrel).
  destruct (decide (parameters = ∅)); [contradiction|].
  rewrite format_BASE, (format_render _ _ Hwf), first_missing_fmap.
  destruct (first_missing parameters t); [reflexivity|].
  cbn. now rewrite filled_substitute.
Qed.

Lemma insert_not_empty (k : string) (v : value) (m : gmap string value) : <[k := v]> m <> ∅.
Proof. apply insert_non_empty. Qed.

(** The routes of the endpoints. *)
Lemma points_route method guild_id member_id :
  Route__init__ method "guilds/{guild_id}/members/{member_id}/points"
    {[ "guild_id" := VInt guild_id; "member_id" := VInt member_id ]}
  = Returns (mkRoute method "guilds/{guild_id}/members/{member_id}/points"
      (BASE +:+ "guilds/" +:+ str_of_int guild_id +:+ "/members/"
       +:+ str_of_int member_id +:+ "/points")).
Proof.
  rewrite (Route_of_template method
    [Text "guilds/"; Field "guild_id"; Text "/members/"; Field "member_id"; Text "/points"]
    _ (insert_not_empty _ _ _) eq_refl eq_refl).
  reflexivity.
Qed.


Lemma score_route method guild_id member_id :
  Route__init__ method "guilds/{guild_id}/members/{member_id}/score"
    {[ "guild_id" := VInt guild_id; "member_id" := VInt member_id ]}
  = Returns (mkRoute method "guilds/{guild_id}/members/{member_id}/score"
      (BASE +:+ "guilds/" +:+ str_of_int guild_id +:+ "/members/"
       +:+ str_of_int member_id +:+ "/score")).
Proof.
  rewrite (Route_of_template method
    [Text "guilds/"; Field "guild_id"; Text "/members/"; Field "member_id"; Text "/score"]
    _ (insert_not_empty _ _ _) eq_refl eq_refl).
  reflexivity.
Qed.

Lemma member_ranking_route method guild_id user_id period :
  Route__init__ method "guilds/{guild_id}/rankings/members/{user_id}/{time_range}"
    {[ "guild_id" := VInt guild_id; "user_id" := VInt user_id; "time_range" := VStr period ]}
  = Returns (mkRoute method "guilds/{guild_id}/rankings/members/{user_id}/{time_range}"
      (BASE +:+ "guilds/" +:+ str_of_int guild_id +:+ "/rankings/members/"
       +:+ str_of_int user_id +:+ "/" +:+ Urllib.quote period)).
Proof.
  rewrite (Route_of_template method
    [Text "guilds/"; Field "guild_id"; Text "/rankings/members/"; Field "user_id";
     Text "/"; Field "time_range"]
    _ (insert_not_empty _ _ _) eq_refl eq_refl).
  match goal with |- context [filled ?p ?t] =>
    change (filled p t)
      with ("guilds/" +:+ str_of_int guild_id +:+ "/rankings/members/"
            +:+ str_of_int user_id +:+ "/" +:+ Urllib.quote period +:+ "") end.
  rewrite append_nil_r. reflexivity.
Qed.

Lemma rankings_route method guild_id period :
  Route__init__ method "guilds/{guild_id}/rankings/{time_range}"
    {[ "guild_id" := VInt guild_id; "time_range" := VStr period ]}
  = Returns (mkRoute method "guilds/{guild_id}/rankings/{time_range}"
      (BASE +:+ "guilds/" +:+ str_of_int guild_id +:+ "/rankings/" +:+ Urllib.quote period)).
Proof.
  rewrite (Route_of_template method
    [Text "guilds/"; Field "guild_id"; Text "/rankings/"; Field "time_range"]
    _ (insert_not_empty _ _ _) eq_refl eq_refl).
  match goal with |- context [filled ?p ?t] =>
    change (filled p t)
      with ("guilds/" +:+ str_of_int guild_id +:+ "/rankings/"
            +:+ Urllib.quote period +:+ "") end.
  rewrite append_nil_r. reflexivity.
Qed.

Lemma profile_route method user_id :
  Route__init__ method "users/{user_id}/profile" {[ "user_id" := VInt user_id ]}
  = Returns (mkRoute method "users/{user_id}/profile"
      (BASE +:+ "users/" +:+ str_of_int user_id +:+ "/profile")).
Proof.
  rewrite (Route_of_template method [Text "users/"; Field "user_id"; Text "/profile"] _
    (map_non_empty_singleton _ _) eq_refl eq_refl).
  reflexivity.
Qed.


(** *** Templates with a leading slash *)

Lemma urlparse_rooted p :
  all_chars path_char p = true ->
  startswith "//" p = false ->
  Urllib.urlparse p "https" = Returns (Urllib.mkParse "https" "" p "" "" "").
Proof.
  intros Hp Hrel. unfold Urllib.urlparse, Urllib.urlsplit.
  rewrite (lstrip_path _ Hp), (remove_unsafe_path _ Hp).
  change (Urllib.remove_unsafe (Urllib.strip "https")) with "https".
  unfold Urllib.split_scheme. rewrite (cut_absent ":" p) by now apply path_lacks.
  assert (Urllib.split_authority p = Returns ("", p)) as ->.
  { destruct p as [|c [|d p]]; try reflexivity.
    unfold Urllib.split_authority. cbn in Hrel. rewrite andb_true_r in Hrel.
    now rewrite (is_char_sym c), (is_char_sym d), Hrel. }
  cbn [mbind outcome_bind].
  rewrite (cut_absent "#" p) by now apply path_lacks.
  rewrite (cut_absent "?" p) by now apply path_lacks.
  cbn [mbind outcome_bind mret outcome_ret Urllib.s_scheme Urllib.s_path
       Urllib.s_netloc Urllib.s_query Urllib.s_fragment].
  rewrite (path_lacks p ";") by (reflexivity || assumption).
  now rewrite andb_false_r.
Qed.

(** Joined to [BASE], a path from the root replaces the path of [BASE]. *)
Lemma urljoin_rooted p :
  rooted_path p = true -> Urllib.urljoin BASE p = Returns (HOST +:+ p).
Proof.
  unfold rooted_path.
  intros [[[Hroot Hone%negb_true_iff]%andb_true_iff Hchars]%andb_true_iff Hdots]%andb_true_iff.
  destruct p as [|c p]; [discriminate|].
  set (q := String c p) in *.
  unfold Urllib.urljoin.
  change (Urllib.nonempty BASE) with true. change (Urllib.nonempty q) with true.
  cbn [negb]. rewrite urlparse_BASE. cbn [mbind outcome_bind Urllib.scheme].
  rewrite (urlparse_rooted _ Hchars Hone).
  cbn [mbind outcome_bind Urllib.scheme Urllib.netloc Urllib.path Urllib.params
       Urllib.query Urllib.fragment].
  change (negb (String.eqb "https" "https")
          || negb (Urllib.mem "https" Urllib.uses_relative)) with false.
  change (Urllib.mem "https" Urllib.uses_netloc && Urllib.nonempty "") with false.
  change (negb (Urllib.nonempty q) && negb (Urllib.nonempty "")) with false.
  change (Urllib.mem "https" Urllib.uses_netloc) with true.
  cbn iota. rewrite Hroot.
  pose proof (split_not_nil "/" q) as Hne. pose proof (join_split "/" q) as Hj.
  rewrite (resolve_plain [] _ Hdots). cbn [app].
  assert (Urllib.is_dot (List.last (split "/" q) "") = false) as ->.
  { rewrite <- (removelast_last (split "/" q) "" Hne), forallb_app in Hdots.
    apply andb_true_iff in Hdots as [_ Hlast].
    cbn [forallb] in Hlast. rewrite andb_true_r in Hlast.
    now apply negb_true_iff in Hlast. }
  rewrite Hj. change (Urllib.nonempty q) with true. cbn iota.
  unfold Urllib.urlunparse, Urllib.urlunsplit.
  cbn [Urllib.scheme Urllib.netloc Urllib.path Urllib.params Urllib.query Urllib.fragment].
  change (Urllib.nonempty "") with false. change (Urllib.nonempty "api.tatsu.gg") with true.
  change (Urllib.nonempty "https") with true. cbn [orb andb].
  rewrite Hroot. change (Urllib.nonempty q) with true. reflexivity.
Qed.




(** *** Parameters that the template does not name *)

Lemma filled_agree (p1 p2 : gmap string value) t :
  (forall name, In (Field name) t -> p1 !! name = p2 !! name) ->
  filled p1 t = filled p2 t /\ first_missing p1 t = first_missing p2 t.
Proof.
  induction t as [|[s|name] t IH]; intros H; cbn [filled fill first_missing].
  - split; reflexivity.
  - destruct IH as [-> ->]; [|split; reflexivity]. intros name Hin. apply H. now right.
  - rewrite (H name (or_introl eq_refl)).
    destruct IH as [-> ->]; [|split; reflexivity]. intros name' Hin. apply H. now right.
Qed.



(** *** What is substituted *)

Lemma hex_digit_quoted n : quoted_char (Urllib.hex_digit n) = true.
Proof. do 16 (destruct n as [|n]; [reflexivity|]). reflexivity. Qed.

Lemma quote_quoted s : all_chars quoted_char (Urllib.quote s) = true.
Proof.
  induction s as [|c s IH]; [reflexivity|].
  cbn [Urllib.quote]. rewrite all_chars_app, IH, andb_true_r.
  unfold Urllib.quote_byte. destruct (Urllib.quote_safe c) eqn:E; cbn [all_chars].
  - unfold quoted_char. now rewrite E.
  - now rewrite !hex_digit_quoted.
Qed.

Lemma uint_quoted d : all_chars quoted_char (NilEmpty.string_of_uint d) = true.
Proof. induction d; cbn [NilEmpty.string_of_uint]; try exact IHd; reflexivity. Qed.

Lemma str_of_int_quoted n : all_chars quoted_char (str_of_int n) = true.
Proof.
  assert (forall d, all_chars quoted_char (NilZero.string_of_uint d) = true) as Huint.
  { intros d. unfold NilZero.string_of_uint. destruct d; try reflexivity; apply uint_quoted. }
  unfold str_of_int, NilZero.string_of_int.
  destruct (Z.to_int n) as [d|d]; [apply Huint|].
  cbn [all_chars]. change (quoted_char "-") with true. apply Huint.
Qed.

Lemma length_append a b :
  String.length (a +:+ b) = (String.length a + String.length b)%nat.
Proof.
  induction a as [|c a IH]; [reflexivity|].
  change (String c a +:+ b) with (String c (a +:+ b)).
  cbn [String.length]. now rewrite IH.
Qed.

Lemma quote_length s : (String.length s <= String.length (Urllib.quote s))%nat.
Proof.
  induction s as [|c s IH]; [reflexivity|].
  cbn [Urllib.quote]. rewrite length_append. unfold Urllib.quote_byte.
  destruct (Urllib.quote_safe c); cbn [String.length]; lia.
Qed.


(** *** Templates that cannot be formatted *)

(** Formatting a text that starts with a well-formed template. *)
Lemma format_prefix kwargs t r :
  well_formed t = true ->
  format_scan kwargs None (render t +:+ r)
  = match first_missing kwargs t with
    | Some name => Raises (KeyError name)
    | None => String.append (substitute kwargs t) <$> format_scan kwargs None r
    end.
Proof.
  induction t as [|[s|name] t IH]; cbn [well_formed forallb piece_ok].
  - intros _. change (render [] +:+ r) with r. cbn [first_missing substitute].
    destruct (format_scan kwargs None r); reflexivity.
  - intros [Hs Ht]%andb_true_iff.
    cbn [render render_piece first_missing substitute expand].
    rewrite append_assoc, (scan_text _ _ _ Hs), (IH Ht).
    destruct (first_missing kwargs t); [reflexivity|].
    destruct (format_scan kwargs None r); cbn; [|reflexivity..].
    now rewrite append_assoc.
  - intros [Hn Ht]%andb_true_iff. cbn [render first_missing substitute expand].
    rewrite append_assoc, (scan_field _ _ _ Hn), (IH Ht).
    destruct (kwargs !! name); [|reflexivity].
    destruct (first_missing kwargs t); [reflexivity|].
    destruct (format_scan kwargs None r); cbn; [|reflexivity..].
    now rewrite append_assoc.
Qed.

Lemma digit_value c :
  is_digit c = true -> 0 <= Z.of_nat (nat_of_ascii c) - 48 <= 9.
Proof.
  unfold is_digit. intros [H1%Nat.leb_le H2%Nat.leb_le]%andb_true_iff. lia.
Qed.

Lemma digit_name_char c : is_digit c = true -> name_char c = true.
Proof.
  intros H. unfold name_char, brace, field_special.
  assert (forall d, is_digit d = false -> is_char c d = false) as Hne.
  { intros d Hd. apply not_true_is_false. intros ->%is_char_eq. congruence. }
  rewrite !Hne by reflexivity. cbn [orb negb andb].
  unfold is_digit, is_ascii in *.
  apply andb_true_iff in H as [_ H%Nat.leb_le].
  rewrite negb_involutive. apply Nat.ltb_lt. lia.
Qed.

(** A name of at most 18 digits is an index. *)
Lemma get_integer_digits s acc :
  all_chars is_digit s = true ->
  0 <= acc ->
  (acc + 1) * 10 ^ Z.of_nat (String.length s) <= 10 ^ 18 ->
  exists n, get_integer acc s = Integer n.
Proof.
  revert acc. induction s as [|c s IH]; intros acc Hd Hacc Hbound.
  - exists acc. reflexivity.
  - cbn [all_chars] in Hd. apply andb_true_iff in Hd as [Hc Hs].
    cbn [get_integer]. rewrite Hc. pose proof (digit_value _ Hc) as Hv.
    cbn [String.length] in Hbound. rewrite Nat2Z.inj_succ, Z.pow_succ_r in Hbound by lia.
    assert (0 < 10 ^ Z.of_nat (String.length s)) as Hpos by (apply Z.pow_pos_nonneg; lia).
    assert (acc + 1 <= 10 ^ 17) as Hsmall.
    { change (10 ^ 18) with (10 * 10 ^ 17) in Hbound. nia. }
    assert ((acc >? (PY_SSIZE_T_MAX - (Z.of_nat (nat_of_ascii c) - 48)) / 10) = false) as ->.
    { rewrite Z.gtb_ltb. apply Z.ltb_ge. apply Z.div_le_lower_bound; [lia|].
      change PY_SSIZE_T_MAX with 9223372036854775807.
      change (10 ^ 17) with 100000000000000000 in Hsmall. lia. }
    apply IH; [exact Hs | lia | nia].
Qed.





End RouteMore.

(** ** The request executor, continued *)

Module ClientMore.
Import Py Http Call Events ClientSpec.

Lemma requests_app l1 l2 : requests (l1 ++ l2) = (requests l1 + requests l2)%nat.
Proof.
  induction l1 as [|e l1 IH]; [reflexivity|].
  destruct e; cbn [app requests]; rewrite IH; reflexivity.
Qed.

Lemma sleeps_app l1 l2 : sleeps (l1 ++ l2) = sleeps l1 ++ sleeps l2.
Proof.
  induction l1 as [|e l1 IH]; [reflexivity|].
  destruct e; cbn [app sleeps]; rewrite IH; reflexivity.
Qed.

Lemma added_app w c rs new : added w (mkState c (mkWorld rs (trace w ++ new))) = new.
Proof. unfold added. cbn [world trace]. now rewrite drop_app_length. Qed.

(** The loop, as a whole: what it adds to the trace, with the replies it
    leaves. *)
Lemma attempts_run n m u kw st :
  exists new consumed,
    trace (world ((attempts n m u kw st).2)) = trace (world st) ++ new
    /\ replies (world st) = consumed ++ replies (world ((attempts n m u kw st).2))
    /\ (requests new <= n)%nat
    /\ (length (sleeps new) <= requests new)%nat
    /\ (n <> 0%nat -> (1 <= requests new <= length (sleeps new) + 1)%nat)
    /\ (length consumed <= requests new)%nat
    /\ Forall (fun d => 0 <= d) (sleeps new).
Proof.
  revert st. induction n as [|n IH]; intros [c [rs tr]].
  - exists [], []. cbn. rewrite app_nil_r. repeat split; first [lia | constructor].
  - destruct rs as [|[now r] rest].
    + exists [Request m u kw], []. rewrite attempts_no_reply. cbn.
      repeat split; first [lia | constructor].
    + destruct (Z.eq_dec (Aiohttp.status r) 429) as [E|E].
      * rewrite (attempts_429 _ _ _ _ _ _ _ _ _ E).
        destruct (IH (mkState (waited now c)
          (mkWorld rest (tr ++ [Request m u kw; Clear;
             Sleep (refresh (_ratelimit_reset_time c) now - now); SetUnlock]))))
          as (new & consumed & Ht & Hc & Hn & Hs & Hb & Hl & Hp).
        exists ([Request m u kw; Clear;
                 Sleep (refresh (_ratelimit_reset_time c) now - now); SetUnlock] ++ new),
               ((now, r) :: consumed).
        cbn [world trace replies] in *.
        rewrite Ht, <- app_assoc, requests_app, sleeps_app. cbn [requests sleeps length app].
        repeat split; try lia.
        -- now rewrite Hc at 1.
        -- constructor; [|exact Hp].
           pose proof (refresh_not_before (_ratelimit_reset_time c) now). lia.
      * rewrite (attempts_final _ _ _ _ _ _ _ _ _ E).
        exists [Request m u kw], [(now, r)]. cbn.
        repeat split; first [lia | constructor].
Qed.


Lemma request_added route kw c w new rs c' :
  (request route kw (mkState c w)).2
  = mkState c' (mkWorld rs ((trace w ++ awaited c) ++ new)) ->
  added w (request route kw (mkState c w)).2 = awaited c ++ new.
Proof. intros ->. rewrite <- app_assoc. apply added_app. Qed.

Lemma awaited_counts c : requests (awaited c) = 0%nat /\ sleeps (awaited c) = [].
Proof. unfold awaited. destruct (_ratelimit_unlock c); split; reflexivity. Qed.


(** A response with a status below 400 ends the call at once, with its
    body. *)
Lemma success_status_returns_body route kw c w now r rest :
  replies w = (now, r) :: rest ->
  Aiohttp.status r < 400 ->
  request route kw (mkState c w)
  = (Returns (Aiohttp.body r),
     mkState (received now (entered c))
       (mkWorld rest
          (trace w ++ awaited c ++ [Request (method route) (url route) (sent c kw)]))).
Proof.
  intros Hw Hlt. rewrite request_unfold, Hw, attempts_final by lia.
  rewrite <- app_assoc.
  destruct (Aiohttp.status r =? 200); [reflexivity|].
  unfold Aiohttp.raise_for_status, Aiohttp.ok.
  destruct (Z.gtb_spec 400 (Aiohttp.status r)); [reflexivity | lia].
Qed.

Lemma refresh_within reset_time now later :
  (forall t, reset_time = Some t ->
             Forall (fun now' => t <= now' + seconds 61) (now :: later)) ->
  Forall (Z.le now) later ->
  refresh reset_time now <= now + seconds 61
  /\ Forall (fun now' => refresh reset_time now <= now' + seconds 61) later.
Proof.
  intros Hreset Hle. unfold refresh. destruct reset_time as [t|].
  - specialize (Hreset t eq_refl). inversion Hreset as [|? ? Hhead Htail]; subst.
    destruct (Z.ltb_spec t now).
    + split; [lia|]. eapply Forall_impl; [exact Hle|]. cbn. intros; lia.
    + split; assumption.
  - split; [lia|]. eapply Forall_impl; [exact Hle|]. cbn. intros; lia.
Qed.

(** With a clock that does not go back and a tracked reset time within
    61 s of the replies to come, no sleep of the loop exceeds 61 s. *)
Lemma attempts_bounded_sleeps n m u kw c rs tr :
  StronglySorted Z.le (map fst rs) ->
  (forall t, _ratelimit_reset_time c = Some t ->
             Forall (fun now => t <= now + seconds 61) (map fst rs)) ->
  Forall (fun d => d <= seconds 61)
    (sleeps (drop (length tr)
       (trace (world (attempts n m u kw (mkState c (mkWorld rs tr))).2)))).
Proof.
  revert c rs tr. induction n as [|n IH]; intros c rs tr Hsorted Hreset.
  - cbn. rewrite drop_all. constructor.
  - destruct rs as [|[now r] rest].
    + rewrite attempts_no_reply. cbn [snd world trace].
      rewrite drop_app_length. repeat constructor.
    + cbn [map fst] in Hsorted, Hreset. apply StronglySorted_inv in Hsorted as [Hs Hle].
      destruct (Z.eq_dec (Aiohttp.status r) 429) as [E|E].
      * rewrite (attempts_429 _ _ _ _ _ _ _ _ _ E).
        set (pre := [Request m u kw; Clear;
                     Sleep (refresh (_ratelimit_reset_time c) now - now); SetUnlock]).
        destruct (refresh_within _ _ _ Hreset Hle) as [Hbound Hrest].
        assert (forall t, _ratelimit_reset_time (waited now c) = Some t ->
                          Forall (fun now' => t <= now' + seconds 61) (map fst rest)) as Hnext.
        { intros t. rewrite waited_reset_time. now intros [= <-]. }
        specialize (IH (waited now c) rest (tr ++ pre) Hs Hnext).
        destruct (attempts_run n m u kw (mkState (waited now c) (mkWorld rest (tr ++ pre))))
          as (new & _ & Ht & _).
        cbn [world trace] in Ht. rewrite Ht in IH |- *.
        rewrite drop_app_length in IH.
        rewrite <- app_assoc, drop_app_length, sleeps_app.
        apply Forall_app. split; [|exact IH].
        cbn. constructor; [lia | constructor].
      * rewrite (attempts_final _ _ _ _ _ _ _ _ _ E). cbn [snd world trace].
        rewrite drop_app_length. repeat constructor.
Qed.

(** X3: when the readings of the clock at the replies do not go back, and
    the reset time tracked before the call (if any) is no more than 61 s
    after each of them, every sleep of the call lasts at most 61 s. *)
Theorem sleeps_at_most_61_seconds route kw c w :
  StronglySorted Z.le (map fst (replies w)) ->
  (forall t, _ratelimit_reset_time c = Some t ->
             Forall (fun now => t <= now + seconds 61) (map fst (replies w))) ->
  Forall (fun d => 0 <= d <= seconds 61)
    (sleeps (added w (request route kw (mkState c w)).2)).
Proof.
  intros Hsorted Hreset. rewrite request_unfold.
  pose proof (attempts_bounded_sleeps 5 (method route) (url route) (sent c kw)
    (entered c) (replies w) (trace w ++ awaited c) Hsorted) as Hle.
  rewrite entered_reset_time in Hle. specialize (Hle Hreset).
  destruct (attempts_run 5 (method route) (url route) (sent c kw)
    (mkState (entered c) (mkWorld (replies w) (trace w ++ awaited c))))
    as (new & _ & Ht & _ & _ & _ & _ & _ & Hpos).
  cbn [world trace] in Ht. unfold added. rewrite Ht in Hle |- *.
  rewrite drop_app_length in Hle. rewrite <- app_assoc, drop_app_length, sleeps_app.
  rewrite (proj2 (awaited_counts c)). cbn [app].
  rewrite Forall_forall in *. intros d Hd. split; [now apply Hpos | now apply Hle].
Qed.

Lemma sleeps_at_most_61_seconds_witness :
  Forall (fun d => 0 <= d <= seconds 61)
    (sleeps (added a_world (request a_route no_kwargs (mkState a_client a_world)).2)).
Proof.
  apply (sleeps_at_most_61_seconds a_route no_kwargs a_client a_world).
  - unfold a_world. cbn [replies map fst]. unfold seconds.
    repeat (constructor; [|repeat (constructor; [lia|]); constructor]). constructor.
  - intros t H. discriminate H.
Defined.

Lemma fold_refresh_from (l : list (Z * Aiohttp.ClientResponse)) t :
  exists t',
    fold_left (fun d now => Some (refresh d (fst now))) l (Some t) = Some t' /\ t <= t'.
Proof.
  revert t. induction l as [|[now r] l IH]; intros t; cbn [fold_left fst].
  - exists t. split; [reflexivity | lia].
  - destruct (IH (refresh (Some t) now)) as (t' & Ht' & Hle).
    exists t'. split; [exact Ht'|].
    assert (t <= refresh (Some t) now); [|lia].
    unfold refresh, seconds. destruct (Z.ltb_spec t now); lia.
Qed.

(** X4: once a response has been received the client tracks a reset time,
    and a call never moves the tracked reset time back: after a call whose
    first reply came at [now], the reset time is not before [now] and not
    before the one tracked when the call began. *)
Theorem reset_time_never_moves_back route kw c w now r rest :
  replies w = (now, r) :: rest ->
  exists t',
    _ratelimit_reset_time (client (request route kw (mkState c w)).2) = Some t'
    /\ now <= t'
    /\ (forall t, _ratelimit_reset_time c = Some t -> t <= t').
Proof.
  intros Hw. rewrite request_unfold, Hw.
  destruct (Z.eq_dec (Aiohttp.status r) 429) as [E|E].
  - rewrite (attempts_429 _ _ _ _ _ _ _ _ _ E).
    match goal with |- context [attempts 4 ?m ?u ?kw ?st] =>
      destruct (attempts_reset_time 4 m u kw st) as (l & _ & ->) end.
    cbn [client]. rewrite waited_reset_time, entered_reset_time.
    destruct (fold_refresh_from l (refresh (_ratelimit_reset_time c) now)) as (t' & -> & Hle).
    exists t'. split; [reflexivity|].
    pose proof (refresh_not_before (_ratelimit_reset_time c) now). split; [lia|].
    intros t Ht. rewrite Ht in Hle. unfold refresh, seconds in Hle.
    destruct (Z.ltb_spec t now); lia.
  - rewrite (attempts_final _ _ _ _ _ _ _ _ _ E). cbn [snd client].
    rewrite received_reset_time, entered_reset_time.
    eexists. split; [reflexivity|].
    split; [apply refresh_not_before|].
    intros t ->. unfold refresh, seconds. destruct (Z.ltb_spec t now); lia.
Qed.

Lemma reset_time_never_moves_back_witness :
  exists t',
    _ratelimit_reset_time (client (request a_route no_kwargs (mkState a_client a_world)).2)
    = Some t'
    /\ seconds 5 <= t'
    /\ (forall t, _ratelimit_reset_time a_client = Some t -> t <= t').
Proof. exact (reset_time_never_moves_back a_route no_kwargs a_client a_world _ _ _ eq_refl). Defined.

(** The loop changes only the reset time and the unlock event of the
    client. *)
Lemma attempts_keep_identity n m u kw st :
  token (client (attempts n m u kw st).2) = token (client st)
  /\ user_agent (client (attempts n m u kw st).2) = user_agent (client st)
  /\ _session (client (attempts n m u kw st).2) = _session (client st).
Proof.
  assert (forall now c, token (received now c) = token c
            /\ user_agent (received now c) = user_agent c
            /\ _session (received now c) = _session c) as Hrec.
  { intros now c. unfold received.
    destruct (expired (_ratelimit_reset_time c) now); repeat split. }
  revert st. induction n as [|n IH]; intros [c [rs tr]]; [repeat split|].
  destruct rs as [|[now r] rest]; [repeat split|].
  destruct (Z.eq_dec (Aiohttp.status r) 429) as [E|E].
  - rewrite (attempts_429 _ _ _ _ _ _ _ _ _ E).
    destruct (IH (mkState (waited now c)
      (mkWorld rest (tr ++ [Request m u kw; Clear;
         Sleep (refresh (_ratelimit_reset_time c) now - now); SetUnlock]))))
      as (-> & -> & ->).
    apply (Hrec now c).
  - rewrite (attempts_final _ _ _ _ _ _ _ _ _ E). apply (Hrec now c).
Qed.


Lemma received_unlock now c :
  _ratelimit_unlock (received now c) = _ratelimit_unlock c.
Proof. unfold received. now destruct (expired (_ratelimit_reset_time c) now). Qed.

(** X6: the 61-second window is shared by the calls of a client: when a
    call has received a response at [T] that started a window, a 429 that
    the next call receives at [T'] within the window makes it sleep until
    [T + 61 s], that is for [T + 61 s - T']. *)
Theorem window_shared_between_calls route1 kw1 route2 kw2 c w T r1 T' r2 rest :
  replies w = (T, r1) :: (T', r2) :: rest ->
  Aiohttp.status r1 < 400 ->
  Aiohttp.status r2 = 429 ->
  expired (_ratelimit_reset_time c) T = true ->
  T' <= T + seconds 61 ->
  exists tail,
    added (world (request route1 kw1 (mkState c w)).2)
      (request route2 kw2 (request route1 kw1 (mkState c w)).2).2
    = Request (method route2) (url route2)
        (sent (client (request route1 kw1 (mkState c w)).2) kw2)
      :: Clear :: Sleep (T + seconds 61 - T') :: SetUnlock :: tail.
Proof.
  intros Hw H1 H2 Hexp Hin.
  rewrite (success_status_returns_body _ _ _ _ _ _ _ Hw H1). cbn [snd world trace].
  set (c1 := received T (entered c)).
  set (tr1 := trace w ++ awaited c ++ [Request (method route1) (url route1) (sent c kw1)]).
  rewrite request_unfold. cbn [replies trace client].
  assert (awaited c1 = []) as ->.
  { unfold awaited, c1. now rewrite received_unlock. }
  rewrite app_nil_r, (attempts_429 _ _ _ _ _ _ _ _ _ H2).
  assert (refresh (_ratelimit_reset_time (entered c1)) T' = T + seconds 61) as ->.
  { rewrite entered_reset_time. unfold c1. rewrite received_reset_time, entered_reset_time.
    unfold refresh, expired in *. destruct (_ratelimit_reset_time c) as [t|].
    - rewrite Hexp. destruct (Z.ltb_spec (T + seconds 61) T'); [lia | reflexivity].
    - destruct (Z.ltb_spec (T + seconds 61) T'); [lia | reflexivity]. }
  match goal with |- context [attempts 4 ?m ?u ?kw ?st] =>
    destruct (attempts_run 4 m u kw st) as (new & _ & Ht & _) end.
  cbn [world trace] in Ht. exists new. unfold added. cbn [world trace].
  rewrite Ht, <- app_assoc, drop_app_length. reflexivity.
Qed.


Lemma window_shared_between_calls_witness :
  exists tail,
    added (world (request a_route no_kwargs (mkState a_client two_calls)).2)
      (request a_route no_kwargs (request a_route no_kwargs (mkState a_client two_calls)).2).2
    = Request (method a_route) (url a_route)
        (sent (client (request a_route no_kwargs (mkState a_client two_calls)).2) no_kwargs)
      :: Clear :: Sleep (seconds 5 + seconds 61 - seconds 20) :: SetUnlock :: tail.
Proof.
  apply (window_shared_between_calls a_route no_kwargs a_route no_kwargs a_client two_calls
           (seconds 5) fine (seconds 20) too_many [(seconds 66, fine)] eq_refl);
    [cbn; lia | reflexivity | reflexivity | unfold seconds; lia].
Defined.

(** X7: the session of a client through [_start_session] and [close].
    Each of the two is idempotent and leaves the world, the token, the
    unlock event and the reset time alone; after [_start_session] there is
    an open session, and an open one is kept as it is; [close] never makes
    a session, and after it there is no open one. *)
Theorem session_lifecycle c w :
  (_start_session ;; _start_session) (mkState c w) = _start_session (mkState c w)
  /\ (close ;; close) (mkState c w) = close (mkState c w)
  /\ _session (client (_start_session (mkState c w)).2) = Some (mkSession false)
  /\ _start_session (mkState (set_session (Some (mkSession false)) c) w)
     = (Returns tt, mkState (set_session (Some (mkSession false)) c) w)
  /\ _session (client (close (mkState c w)).2)
     = match _session c with Some _ => Some (mkSession true) | None => None end
  /\ _session (client ((close ;; _start_session) (mkState c w)).2) = Some (mkSession false)
  /\ world (_start_session (mkState c w)).2 = w
  /\ world (close (mkState c w)).2 = w
  /\ set_session None (client (_start_session (mkState c w)).2) = set_session None c
  /\ set_session None (client (close (mkState c w)).2) = set_session None c.
Proof.
  destruct c as [tok ses ua unlock reset].
  destruct ses as [[[]]|]; repeat split; reflexivity.
Qed.


(** The loop through some 429 replies and to the reply after them. *)
Lemma attempts_through n m u kw c tr limited now r rest :
  Forall rate_limited limited ->
  (length limited < n)%nat ->
  Aiohttp.status r <> 429 ->
  exists c' new,
    attempts n m u kw (mkState c (mkWorld (limited ++ (now, r) :: rest) tr))
    = (if Aiohttp.status r =? 200 then Returns (Aiohttp.body r)
       else _ ← Aiohttp.raise_for_status r; Returns (Aiohttp.body r),
       mkState c' (mkWorld rest (tr ++ new)))
    /\ requests new = S (length limited)
    /\ length (sleeps new) = length limited.
Proof.
  intros Hlim. revert n c tr.
  induction Hlim as [|[now' r'] limited Hr' _ IH]; intros n c tr Hn Hr.
  - destruct n as [|n]; [cbn in Hn; lia|]. cbn [app].
    rewrite (attempts_final _ _ _ _ _ _ _ _ _ Hr).
    eexists _, [Request m u kw]. repeat split.
  - destruct n as [|n]; [cbn in Hn; lia|]. cbn [app length] in *.
    rewrite (attempts_429 _ _ _ _ _ _ _ _ _ Hr').
    match goal with |- context [attempts n m u kw (mkState ?c1 (mkWorld _ (tr ++ ?pre)))] =>
      destruct (IH n c1 (tr ++ pre) ltac:(lia) Hr) as (c' & new & -> & Hq & Hs);
      exists c', (pre ++ new) end.
    rewrite <- app_assoc, requests_app, sleeps_app, length_app, Hq, Hs.
    repeat split.
Qed.

(** X2: up to four 429 replies before the reply that decides do not
    change the outcome of a call: it is the one that the deciding reply
    would have given at once (its body for a status below 400, the
    response error otherwise), after one request and one sleep per 429 and
    one more request. *)
Theorem rate_limits_then_answer route kw c w limited now r rest :
  replies w = limited ++ (now, r) :: rest ->
  Forall rate_limited limited ->
  (length limited <= 4)%nat ->
  Aiohttp.status r <> 429 ->
  (request route kw (mkState c w)).1
  = (if Aiohttp.status r <? 400 then Returns (Aiohttp.body r)
     else Raises (ClientResponseError (Aiohttp.status r) (Aiohttp.reason r)
                    (Aiohttp.headers r)))
  /\ replies (world (request route kw (mkState c w)).2) = rest
  /\ requests (added w (request route kw (mkState c w)).2) = S (length limited)
  /\ length (sleeps (added w (request route kw (mkState c w)).2)) = length limited.
Proof.
  intros Hw Hlim Hlen Hr. rewrite request_unfold, Hw.
  destruct (attempts_through 5 (method route) (url route) (sent c kw) (entered c)
    (trace w ++ awaited c) limited now r rest Hlim ltac:(lia) Hr)
    as (c' & new & -> & Hq & Hs).
  cbn [fst snd world replies]. unfold added. cbn [world trace].
  rewrite <- app_assoc, drop_app_length, requests_app, sleeps_app, length_app.
  destruct (awaited_counts c) as [-> ->]. cbn [length Nat.add].
  repeat split; [|assumption..].
  unfold Aiohttp.raise_for_status, Aiohttp.ok. rewrite Z.gtb_ltb.
  destruct (Z.eqb_spec (Aiohttp.status r) 200) as [->|]; [reflexivity|].
  now destruct (Aiohttp.status r <? 400).
Qed.

Lemma rate_limits_then_answer_witness :
  (request a_route no_kwargs (mkState a_client a_world)).1 = Returns "{}".
Proof.
  refine (proj1 (rate_limits_then_answer a_route no_kwargs a_client a_world
    [(seconds 5, too_many); (seconds 67, too_many)] (seconds 128) fine [] eq_refl _ _ _)).
  - repeat constructor.
  - cbn. lia.
  - cbn. lia.
Defined.

Lemma attempts_ending n m u kw st :
  exists consumed,
    replies (world st) = consumed ++ replies (world (attempts n m u kw st).2)
    /\ ending consumed (attempts n m u kw st).1.
Proof.
  revert st. induction n as [|n IH]; intros [c [rs tr]].
  - exists []. split; [reflexivity|]. apply ends_exhausted. constructor.
  - destruct rs as [|[now r] rest].
    + exists []. split; [reflexivity|]. apply ends_without_reply. constructor.
    + destruct (Z.eq_dec (Aiohttp.status r) 429) as [E|E].
      * rewrite (attempts_429 _ _ _ _ _ _ _ _ _ E).
        match goal with |- context [attempts n m u kw ?st1] =>
          destruct (IH st1) as (consumed & Hc & He) end.
        exists ((now, r) :: consumed). cbn [world replies] in *. split.
        -- rewrite Hc at 1. reflexivity.
        -- destruct He as [r' Hin Hlt | r' Hin Hge Hne | Hall | Hall].
           ++ apply ends_with_body; [now right | assumption].
           ++ apply ends_with_response_error; [now right | assumption..].
           ++ apply ends_exhausted. now constructor.
           ++ apply ends_without_reply. now constructor.
      * rewrite (attempts_final _ _ _ _ _ _ _ _ _ E).
        exists [(now, r)]. split; [reflexivity|]. cbn [fst].
        destruct (Z.eqb_spec (Aiohttp.status r) 200) as [E200|].
        -- apply ends_with_body; [now left | lia].
        -- unfold Aiohttp.raise_for_status, Aiohttp.ok.
           destruct (Z.gtb_spec 400 (Aiohttp.status r)).
           ++ apply ends_with_body; [now left | lia].
           ++ apply ends_with_response_error; [now left | lia | assumption].
Qed.


End ClientMore.

(** ** The endpoints *)

Module EndpointSpec.
Import Py Http Call RouteMore.






End EndpointSpec.
